(** * review-nestjs: the users and books services and their controllers

    A shallow embedding of the TypeScript sources

      - [src/books/book.entity.ts], [src/books/books.service.ts],
        [src/books/books.controller.ts], [src/books/dto/update-book.dto.ts];
      - [src/users/users.service.ts], [src/users/users.controller.ts],
        [src/users/users.module.ts].

    Every service method is a sequence of awaited repository calls.  The
    database is an explicit state [DB] threaded through a small state monad
    [M]; [await] is the monad's bind.  A call that can reject has a result
    of type [outcome]: a returned value or a thrown [QueryFailedError]; a
    throw skips the rest of the method, keeps what was written before it,
    and is caught by the [try] blocks of the books controller or reaches
    the framework.  The two tables are finite maps from the primary key to
    the remaining columns, so a primary key is unique by construction, and
    an entity is the row joined with its key.

    Boundary of the model.  TypeORM's [Repository], PostgreSQL, bcrypt and
    the JWT library are collaborators, not code of this repository.  The
    repository calls are given their meaning on a keyed table ([find],
    [findOne], [save], [delete]) together with what the schema declared by
    the entities makes the database refuse: a book identifier that is not
    written as a uuid, the deletion of a user that a book names as its
    buyer, a second user with a registered e-mail address.  bcrypt is a
    pair of abstract functions; the signer is an interface, with the
    instance that [users.module.ts] registers.  A lost connection is not
    modelled.  The [createdAt] and [updatedAt] columns are written by the
    persistence layer alone and read by no method; the records leave them
    out. *)

From Stdlib Require Import Ascii.
From stdpp Require Import gmap strings list fin_maps pretty.

Local Open Scope string_scope.
Set Warnings "-register-all".

(** ** JSON values, as passed to [res.json] and to the signer *)

Inductive json : Type :=
  | JNull
  | JBool (b : bool)
  | JNum (n : Z)
  | JStr (s : string)
  | JArr (items : list json)
  | JObj (fields : list (string * json)).

(** [o[k]] on the property list of an object: the first binding of [k]. *)
Fixpoint json_field (k : string) (fields : list (string * json)) : option json :=
  match fields with
  | [] => None
  | (k', v) :: rest => if String.eqb k k' then Some v else json_field k rest
  end.

Definition json_get (k : string) (j : json) : option json :=
  match j with
  | JObj fields => json_field k fields
  | _ => None
  end.

Definition json_keys (j : json) : list string :=
  match j with
  | JObj fields => fields.*1
  | _ => []
  end.

(** ** Entities *)

(** Modelled from the spec: [src/users/user.entity.ts] is not among the
    sources.  Section 3 of the specification lists the columns: a generated
    identifier, [email], [name], and [password] holding the salted hash;
    the controller reads [user.id], [user.email] and [user.password]. *)
Module User.
Record t : Type := mk {
  id : string;
  email : string;
  name : string;
  password : string;
}.
End User.
Abbreviation User := User.t.

(** The value of a [decimal] column in an entity.  The amount is kept as an
    integer.  An entity built from a request body carries it as the number
    that was sent; an entity read from the database carries the column's
    text. *)
Inductive decimal : Type :=
  | Number (amount : Z)
  | Text (amount : Z).

Definition amount_of (d : decimal) : Z :=
  match d with
  | Number n => n
  | Text n => n
  end.

(** [src/books/book.entity.ts]. *)
Module Book.
Record t : Type := mk {
  id : string;
  title : string;
  author : string;
  price : decimal;
  isSold : bool;
  buyer : option User;
}.
End Book.
Abbreviation Book := Book.t.

(** ** Request bodies *)

(** Modelled from the spec: [src/books/dto/create-book.dto.ts] is not among
    the sources.  The tests post [{ title, author, price }]; the
    specification of [createBook] speaks of an [isSold] value that the input
    may carry, hence the optional field. *)
Module CreateBookDto.
Record t : Type := mk {
  title : string;
  author : string;
  price : Z;
  isSold : option bool;
}.
End CreateBookDto.

(** [src/books/dto/update-book.dto.ts]: every property is optional. *)
Module UpdateBookDto.
Record t : Type := mk {
  title : option string;
  author : option string;
  price : option Z;
  isSold : option bool;
}.
End UpdateBookDto.

(** Modelled from the spec: [src/users/dto/create-user.dto.ts] is not among
    the sources.  The tests post [{ name, email, password }]. *)
Module CreateUserDto.
Record t : Type := mk {
  email : string;
  name : string;
  password : string;
}.
End CreateUserDto.

(** Modelled from the spec: [src/users/dto/update-user.dto.ts] is not among
    the sources; the partial form of the creation body. *)
Module UpdateUserDto.
Record t : Type := mk {
  email : option string;
  name : option string;
  password : option string;
}.
End UpdateUserDto.

(** Modelled from the spec: [src/users/dto/login.dto.ts] is not among the
    sources.  The controller reads [body.email] and [body.password]. *)
Module LoginDto.
Record t : Type := mk {
  email : string;
  password : string;
}.
End LoginDto.

(** ** Tables *)

(** A row of [users]: the columns other than the primary key. *)
Module UserRow.
Record t : Type := mk {
  email : string;
  name : string;
  password : string;
}.
End UserRow.

(** A row of [books].  The [buyer] relation is the nullable join column
    [buyerId] ([@JoinColumn({ name: 'buyerId' })]). *)
Module BookRow.
Record t : Type := mk {
  title : string;
  author : string;
  price : Z;
  isSold : bool;
  buyerId : option string;
}.
End BookRow.

Record DB : Type := mkDB {
  users : gmap string UserRow.t;
  books : gmap string BookRow.t;
}.

Definition set_users (f : gmap string UserRow.t → gmap string UserRow.t) (db : DB) : DB :=
  {| users := f (users db); books := books db |}.

Definition set_books (f : gmap string BookRow.t → gmap string BookRow.t) (db : DB) : DB :=
  {| users := users db; books := f (books db) |}.

(** ** The monad of awaited database calls *)

Definition M (A : Type) : Type := DB → A * DB.

Definition ret {A} (a : A) : M A := λ db, (a, db).

Definition bind {A B} (m : M A) (k : A → M B) : M B :=
  λ db, let '(a, db') := m db in k a db'.

Definition gets {A} (f : DB → A) : M A := λ db, (f db, db).

Definition modify (f : DB → DB) : M unit := λ db, (tt, f db).

Notation "x <- m ;; k" := (bind m (λ x, k))
  (at level 100, m at next level, right associativity,
   format "'[v' x  <-  m  ;;  '/' k ']'").
Notation "m ;;; k" := (bind m (λ _, k))
  (at level 100, right associativity).

(** A rejected promise: the error TypeORM raises when the database refuses
    a statement. *)
Inductive QueryFailedError : Type :=
  | InvalidUuid
  | ForeignKeyViolation
  | UniqueViolation.

Inductive outcome (A : Type) : Type :=
  | Returned (a : A)
  | Thrown (e : QueryFailedError).
Arguments Returned {A} a.
Arguments Thrown {A} e.

(** An awaited call that can reject. *)
Definition Mx (A : Type) : Type := M (outcome A).

Definition retx {A} (a : A) : Mx A := ret (Returned a).

Definition throw {A} (e : QueryFailedError) : Mx A := ret (Thrown e).

(** A call that never rejects, awaited among calls that can. *)
Definition lift {A} (m : M A) : Mx A :=
  a <- m ;; retx a.

(** [await]: a rejection ends the method. *)
Definition bindx {A B} (m : Mx A) (k : A → Mx B) : Mx B :=
  r <- m ;;
  match r with
  | Returned a => k a
  | Thrown e => throw e
  end.

Notation "x <-! m ;; k" := (bindx m (λ x, k))
  (at level 100, m at next level, right associativity,
   format "'[v' x  <-!  m  ;;  '/' k ']'").

(** [try { body } catch { handler }] *)
Definition try_catch {A} (body : Mx A) (handler : M A) : M A :=
  r <- body ;;
  match r with
  | Returned a => ret a
  | Thrown _ => handler
  end.

(** ** The text of a uuid *)

(** PostgreSQL reads a uuid as sixteen bytes of two hexadecimal digits, in
    either case, with an optional hyphen after every second byte but the
    last, the whole optionally in braces. *)
Definition is_hex (c : ascii) : bool :=
  let n := nat_of_ascii c in
  ((48 <=? n)%nat && (n <=? 57)%nat)
  || ((97 <=? n)%nat && (n <=? 102)%nat)
  || ((65 <=? n)%nat && (n <=? 70)%nat).

Fixpoint uuid_groups (groups : nat) (s : string) : option string :=
  match groups with
  | O => Some s
  | S g =>
      match s with
      | String a (String b (String c (String d rest))) =>
          if is_hex a && is_hex b && is_hex c && is_hex d then
            match g, rest with
            | S _, String h rest' =>
                if Ascii.eqb h "-" then uuid_groups g rest' else uuid_groups g rest
            | _, _ => uuid_groups g rest
            end
          else None
      | _ => None
      end
  end.

Definition is_uuid (s : string) : bool :=
  match s with
  | String c inner =>
      if Ascii.eqb c "{"
      then match uuid_groups 8 inner with
           | Some rest => String.eqb rest "}"
           | None => false
           end
      else match uuid_groups 8 s with
           | Some rest => String.eqb rest ""
           | None => false
           end
  | EmptyString => false
  end.

(** ** JavaScript truthiness of the values the code branches on *)

(** [!!x] for [x : string | null]: the empty string and [null] are falsy. *)
Definition truthy_string (x : option string) : bool :=
  match x with
  | Some s => negb (String.eqb s "")
  | None => false
  end.

(** [!!x] for an object or [null]. *)
Definition truthy_obj {A} (x : option A) : bool :=
  match x with
  | Some _ => true
  | None => false
  end.

(** [!!n] for a number. *)
Definition truthy_num (n : nat) : bool := negb (Nat.eqb n 0).

(** ** Repository<User> *)

Module UserRepo.

Definition entity (k : string) (r : UserRow.t) : User :=
  {| User.id := k;
     User.email := UserRow.email r;
     User.name := UserRow.name r;
     User.password := UserRow.password r |}.

Definition row (u : User) : UserRow.t :=
  {| UserRow.email := User.email u;
     UserRow.name := User.name u;
     UserRow.password := User.password u |}.

(** [repo.find()] *)
Definition find : M (list User) :=
  gets (λ db, (λ kr, entity kr.1 kr.2) <$> map_to_list (users db)).

(** [repo.findOne({ where: { id } })] *)
Definition findOne_id (id : string) : M (option User) :=
  gets (λ db, entity id <$> users db !! id).

(** [repo.findOne({ where: { email } })]: the first matching row. *)
Definition findOne_email (email : string) : M (option User) :=
  gets (λ db,
    List.find (λ u, bool_decide (User.email u = email))
              ((λ kr, entity kr.1 kr.2) <$> map_to_list (users db))).

(** Some stored row has this e-mail address. *)
Definition email_taken (email : string) (db : DB) : bool :=
  existsb (λ kr : string * UserRow.t, bool_decide (UserRow.email kr.2 = email))
          (map_to_list (users db)).

(** [repo.save(entity)] for an entity that came from [repo.create]: it
    has no identifier yet, the row is inserted under the identifier the
    database generates ([uuid]), and the entity is returned with it.  The
    [email] column is unique: the database refuses a row whose address is
    already stored. *)
Definition insert (uuid : string) (r : UserRow.t) : Mx User :=
  λ db, if email_taken (UserRow.email r) db
        then (Thrown UniqueViolation, db)
        else (Returned (entity uuid r), set_users (insert uuid r) db).

(** [repo.save(entity)] for a loaded entity: the row of its identifier is
    written, and the entity is returned. *)
Definition save (u : User) : M User :=
  modify (set_users (<[User.id u := row u]>)) ;;;
  ret u.

(** Some book row names this user in its [buyerId] column. *)
Definition is_buyer (id : string) (db : DB) : bool :=
  existsb (λ kr : string * BookRow.t, bool_decide (BookRow.buyerId kr.2 = Some id))
          (map_to_list (books db)).

(** [repo.delete(id)]: the result's [affected] is the number of rows
    removed.  [books.buyerId] is a foreign key to [users] (the [@ManyToOne]
    of [book.entity.ts], with no [onDelete]): the database refuses to
    delete a user that a book names as its buyer. *)
Definition delete (id : string) : Mx nat :=
  λ db, match users db !! id with
        | Some _ =>
            if is_buyer id db then (Thrown ForeignKeyViolation, db)
            else (Returned 1, set_users (base.delete id) db)
        | None => (Returned 0, db)
        end.

End UserRepo.

(** ** Repository<Book> *)

Module BookRepo.

(** An entity loaded with [relations: ['buyer']]: the join column is
    resolved against the [users] table, and the decimal column arrives as
    text. *)
Definition entity (db : DB) (k : string) (r : BookRow.t) : Book :=
  {| Book.id := k;
     Book.title := BookRow.title r;
     Book.author := BookRow.author r;
     Book.price := Text (BookRow.price r);
     Book.isSold := BookRow.isSold r;
     Book.buyer :=
       uid ← BookRow.buyerId r;
       UserRepo.entity uid <$> users db !! uid |}.

(** An entity loaded without relations: [buyer] is not populated. *)
Definition entity_plain (k : string) (r : BookRow.t) : Book :=
  {| Book.id := k;
     Book.title := BookRow.title r;
     Book.author := BookRow.author r;
     Book.price := Text (BookRow.price r);
     Book.isSold := BookRow.isSold r;
     Book.buyer := None |}.

(** The entity that [save] hands back after an insert: the object made by
    [create], with the number of the request as its price, completed with
    the generated identifier. *)
Definition created (k : string) (r : BookRow.t) : Book :=
  {| Book.id := k;
     Book.title := BookRow.title r;
     Book.author := BookRow.author r;
     Book.price := Number (BookRow.price r);
     Book.isSold := BookRow.isSold r;
     Book.buyer := None |}.

Definition row (b : Book) : BookRow.t :=
  {| BookRow.title := Book.title b;
     BookRow.author := Book.author b;
     BookRow.price := amount_of (Book.price b);
     BookRow.isSold := Book.isSold b;
     BookRow.buyerId := User.id <$> Book.buyer b |}.

(** [repo.find({ relations: ['buyer'] })] *)
Definition find_with_buyer : M (list Book) :=
  gets (λ db, (λ kr, entity db kr.1 kr.2) <$> map_to_list (books db)).

(** [repo.find({ where: { isSold } })] *)
Definition find_isSold (v : bool) : M (list Book) :=
  gets (λ db,
    List.filter (λ b, Bool.eqb (Book.isSold b) v)
                ((λ kr, entity_plain kr.1 kr.2) <$> map_to_list (books db))).

(** What a statement answers for an identifier that selects no row.  The
    [id] column has type uuid ([@PrimaryGeneratedColumn('uuid')]): the
    database refuses a value that is not the text of a uuid.  Every stored
    identifier was generated by the database, so the refusal can only meet
    an identifier that is not stored. *)
Definition no_such_row {A} (id : string) (none : A) : outcome A :=
  if is_uuid id then Returned none else Thrown InvalidUuid.

(** [repo.findOne({ where: { id }, relations: ['buyer'] })] *)
Definition findOne_id (id : string) : Mx (option Book) :=
  gets (λ db,
    match books db !! id with
    | Some r => Returned (Some (entity db id r))
    | None => no_such_row id None
    end).

Definition insert (uuid : string) (r : BookRow.t) : M Book :=
  modify (set_books (insert uuid r)) ;;;
  ret (created uuid r).

Definition save (b : Book) : M Book :=
  modify (set_books (<[Book.id b := row b]>)) ;;;
  ret b.

Definition delete (id : string) : Mx nat :=
  λ db, match books db !! id with
        | Some _ => (Returned 1, set_books (base.delete id) db)
        | None => (no_such_row id 0, db)
        end.

End BookRepo.

(** ** SQL [LOWER] on the characters A-Z *)

Definition is_upper (c : ascii) : bool :=
  (65 <=? nat_of_ascii c)%nat && (nat_of_ascii c <=? 90)%nat.

Definition lower_char (c : ascii) : ascii :=
  if is_upper c then ascii_of_nat (nat_of_ascii c + 32) else c.

Fixpoint LOWER (s : string) : string :=
  match s with
  | EmptyString => EmptyString
  | String c rest => String (lower_char c) (LOWER rest)
  end.

(** ** BooksService *)

(** [Object.assign(b, dto)]: the properties present in [dto] overwrite
    those of [b]. *)
Definition assign_book (b : Book) (dto : UpdateBookDto.t) : Book :=
  {| Book.id := Book.id b;
     Book.title := default (Book.title b) (UpdateBookDto.title dto);
     Book.author := default (Book.author b) (UpdateBookDto.author dto);
     Book.price := default (Book.price b) (Number <$> UpdateBookDto.price dto);
     Book.isSold := default (Book.isSold b) (UpdateBookDto.isSold dto);
     Book.buyer := Book.buyer b |}.

(** [book.isSold = true; book.buyer = buyer] *)
Definition sold_to (book : Book) (buyer : User) : Book :=
  {| Book.id := Book.id book;
     Book.title := Book.title book;
     Book.author := Book.author book;
     Book.price := Book.price book;
     Book.isSold := true;
     Book.buyer := Some buyer |}.

Module BooksService.

Definition getBooks : M (list Book) := BookRepo.find_with_buyer.

Definition findBookById (id : string) : Mx (option Book) :=
  BookRepo.findOne_id id.

(** [this.repo.create({ ...dto, isSold: false })] then [save].  In the
    object literal the later [isSold: false] replaces the property spread
    from [dto]; [create] fills the entity from the literal, and an entity
    created this way has no buyer. *)
Definition addBook (dto : CreateBookDto.t) (uuid : string) : M Book :=
  let literal :=
    {| CreateBookDto.title := CreateBookDto.title dto;
       CreateBookDto.author := CreateBookDto.author dto;
       CreateBookDto.price := CreateBookDto.price dto;
       CreateBookDto.isSold := Some false |} in
  let entity :=
    {| BookRow.title := CreateBookDto.title literal;
       BookRow.author := CreateBookDto.author literal;
       BookRow.price := CreateBookDto.price literal;
       BookRow.isSold := default false (CreateBookDto.isSold literal);
       BookRow.buyerId := None |} in
  BookRepo.insert uuid entity.

Definition getAvailableBooks : M (list Book) := BookRepo.find_isSold false.

Definition getSoldBooks : M (list Book) := BookRepo.find_isSold true.

Definition findBooks : M (list Book) := getAvailableBooks.

(** [createQueryBuilder('b').where('LOWER(b.author) = LOWER(:a)', { a: author }).getMany()] *)
Definition findBookByAuthor (author : string) : M (list Book) :=
  gets (λ db,
    List.filter (λ b, String.eqb (LOWER (Book.author b)) (LOWER author))
                ((λ kr, BookRepo.entity_plain kr.1 kr.2) <$> map_to_list (books db))).

Definition removeBook (id : string) : Mx bool :=
  affected <-! BookRepo.delete id ;;
  retx (truthy_num affected).

Definition markBookAsSold (bookId userId : string) : Mx (option Book) :=
  book <-! findBookById bookId ;;
  match book with
  | None => retx None
  | Some book =>
      buyer <-! lift (UserRepo.findOne_id userId) ;;
      match buyer with
      | None => retx None
      | Some buyer =>
          saved <-! lift (BookRepo.save (sold_to book buyer)) ;;
          retx (Some saved)
      end
  end.

Definition updateBook (id : string) (dto : UpdateBookDto.t) : Mx (option Book) :=
  b <-! findBookById id ;;
  match b with
  | None => retx None
  | Some b =>
      saved <-! lift (BookRepo.save (assign_book b dto)) ;;
      retx (Some saved)
  end.

Definition buyBook (userId bookId : string) : Mx (option string) :=
  found <-! findBookById bookId ;;
  match found with
  | None => retx None
  | Some found =>
      if Book.isSold found then retx None
      else
        saved <-! markBookAsSold bookId userId ;;
        if negb (truthy_obj saved) then retx None
        else retx (Some ("El libro " +:+ Book.title found +:+
                         " ha sido comprado por el usuario con ID " +:+ userId +:+ "."))
  end.

End BooksService.

(** ** HTTP responses *)

Record Response : Type := mkResponse {
  status : nat;
  body : option json;
}.

(** [res.status(code).json(value)] *)
Definition res_json (code : nat) (value : json) : Response :=
  {| status := code; body := Some value |}.

(** [res.status(code).send()] *)
Definition res_send (code : nat) : Response :=
  {| status := code; body := None |}.

Definition message (text : string) : json := JObj [("message", JStr text)].

Definition json_of_string (x : option string) : json :=
  match x with
  | Some s => JStr s
  | None => JNull
  end.

(** What the framework answers when a handler rejects.

    Modelled from the spec: the exception filter is the framework's.
    Section 7 has such errors "propagate uncaught to a generic
    framework-level 500"; the body is the framework's standard one. *)
Definition respond (r : outcome Response) : Response :=
  match r with
  | Returned res => res
  | Thrown _ =>
      res_json 500 (JObj [("statusCode", JNum 500);
                          ("message", JStr "Internal server error")])
  end.

(** A decimal in a response: the number, or the text. *)
Definition json_of_decimal (d : decimal) : json :=
  match d with
  | Number n => JNum n
  | Text n => JStr (pretty n)
  end.

(** [res.json(user)]: every property of the entity is serialised. *)
Definition json_of_user (u : User) : json :=
  JObj [("id", JStr (User.id u));
        ("email", JStr (User.email u));
        ("name", JStr (User.name u));
        ("password", JStr (User.password u))].

Definition json_of_nullable_user (u : option User) : json :=
  match u with
  | Some u => json_of_user u
  | None => JNull
  end.

(** [res.json(book)] for a book loaded with [relations: ['buyer']]: the
    [buyer] property is the buyer's record, or [null]. *)
Definition json_of_book (b : Book) : json :=
  JObj [("id", JStr (Book.id b));
        ("title", JStr (Book.title b));
        ("author", JStr (Book.author b));
        ("price", json_of_decimal (Book.price b));
        ("isSold", JBool (Book.isSold b));
        ("buyer", json_of_nullable_user (Book.buyer b))].

Definition json_of_nullable_book (b : option Book) : json :=
  match b with
  | Some b => json_of_book b
  | None => JNull
  end.

(** [res.json(book)] for a book whose relation was not loaded (the entity
    returned by [save] after [create], the rows of the query builder):
    [buyer] is [undefined] and is left out of the serialisation. *)
Definition json_of_book_plain (b : Book) : json :=
  JObj [("id", JStr (Book.id b));
        ("title", JStr (Book.title b));
        ("author", JStr (Book.author b));
        ("price", json_of_decimal (Book.price b));
        ("isSold", JBool (Book.isSold b))].

(** ** BooksController *)

Module BooksController.

Definition create (dto : CreateBookDto.t) (uuid : string) : M Response :=
  try_catch
    (book <-! lift (BooksService.addBook dto uuid) ;;
     retx (res_json 201 (json_of_book_plain book)))
    (ret (res_json 500 (message "Error creating book"))).

Definition findAll : M Response :=
  try_catch
    (list <-! lift BooksService.getBooks ;;
     retx (res_json 200 (JArr (json_of_book <$> list))))
    (ret (res_json 500 (message "Error fetching books"))).

Definition findOne (id : string) : Mx Response :=
  b <-! BooksService.findBookById id ;;
  retx (match b with
        | Some b => res_json 200 (json_of_book b)
        | None => res_json 404 (message "Book not found")
        end).

Definition remove (id : string) : Mx Response :=
  ok <-! BooksService.removeBook id ;;
  retx (if ok then res_send 204 else res_json 404 (message "Book not found")).

Definition update (id : string) (dto : UpdateBookDto.t) : Mx Response :=
  exists_ <-! BooksService.findBookById id ;;
  if negb (truthy_obj exists_) then retx (res_json 404 (message "Book not found"))
  else
    updated <-! BooksService.updateBook id dto ;;
    retx (res_json 200 (json_of_nullable_book updated)).

Definition byAuthor (author : string) : M Response :=
  try_catch
    (list <-! lift (BooksService.findBookByAuthor author) ;;
     retx (res_json 200 (JArr (json_of_book_plain <$> list))))
    (ret (res_json 500 (message "Error fetching books by author"))).

Definition buy (bookId userId : string) : M Response :=
  try_catch
    (msg <-! BooksService.buyBook userId bookId ;;
     retx (if truthy_string msg
           then res_json 200 (JObj [("message", json_of_string msg)])
           else res_json 404 (message "Book not found or already sold")))
    (ret (res_json 500 (message "Error buying book"))).

End BooksController.

(** ** Collaborators of the users module *)

(** [bcrypt.hash(data, rounds)] and [bcrypt.compare(data, encrypted)]. *)
Class Bcrypt : Type := {
  bcrypt_hash : string → nat → string;
  bcrypt_compare : string → string → bool;
}.

(** The options object given to [signAsync]. *)
Record SignOptions : Type := mkSignOptions {
  secret : option string;
  expiresIn : string;
}.

(** [JwtService.signAsync(payload, options)], injected into the service. *)
Class JwtService : Type := {
  signAsync : json → SignOptions → string;
}.

(** [process.env] *)
Class ProcessEnv : Type := {
  process_env : gmap string string;
}.

(** The time-span notation of [expiresIn]: a decimal count followed by a
    unit, [s], [m], [h] or [d]; the value in seconds. *)
Definition digit_value (c : ascii) : option nat :=
  let n := nat_of_ascii c in
  if (48 <=? n)%nat && (n <=? 57)%nat then Some (n - 48)%nat else None.

Definition unit_seconds (c : ascii) : option nat :=
  if Ascii.eqb c "s" then Some 1%nat
  else if Ascii.eqb c "m" then Some 60%nat
  else if Ascii.eqb c "h" then Some 3600%nat
  else if Ascii.eqb c "d" then Some (24 * 3600)%nat
  else None.

Fixpoint span_from (count : nat) (s : string) : option nat :=
  match s with
  | EmptyString => None
  | String c EmptyString => (λ u, count * u)%nat <$> unit_seconds c
  | String c rest =>
      match digit_value c with
      | Some d => span_from (10 * count + d) rest
      | None => None
      end
  end.

Definition span_seconds (s : string) : option nat :=
  match s with
  | String c _ =>
      match digit_value c with
      | Some _ => span_from 0 s
      | None => None
      end
  | EmptyString => None
  end.

(** ** The signer that [users.module.ts] registers *)

(** The primitives of a signed token: the base64url text of a JSON value
    and the HMAC-SHA256 of a text under a key. *)
Class Jws : Type := {
  base64url : json → string;
  hmac_sha256 : string → string → string;
}.

(** The clock, in seconds, read when a token is signed. *)
Class Clock : Type := {
  now : Z;
}.

(** The claims that are signed: those of the payload, the time of issue
    [iat], and the expiry [exp], which is [iat] plus the span of
    [expiresIn]. *)
Definition jwt_claims (payload : json) (iat : Z) (expiresIn : string) : json :=
  match payload with
  | JObj fields =>
      JObj (fields ++ [("iat", JNum iat)] ++
            match span_seconds expiresIn with
            | Some span => [("exp", JNum (iat + Z.of_nat span))]
            | None => []
            end)
  | _ => payload
  end.

Definition jwt_header : json := JObj [("alg", JStr "HS256"); ("typ", JStr "JWT")].

(** A token in compact form: header, claims and signature, the signature
    being the HMAC of the first two parts under the secret. *)
Definition jwt_signing_input `{Jws} (claims : json) : string :=
  base64url jwt_header +:+ "." +:+ base64url claims.

Definition jwt_sign `{Jws} (claims : json) (key : string) : string :=
  jwt_signing_input claims +:+ "." +:+ hmac_sha256 key (jwt_signing_input claims).

(** [JwtModule.register({ global: true, secret: process.env.JWT_SECRET ?? 'dev' })]:
    [??] replaces only a variable that is not set. *)
Definition JwtModule_secret `{ProcessEnv} : string :=
  default "dev" (process_env !! "JWT_SECRET").

(** The secret a call signs with: [options.secret || moduleOptions.secret]. *)
Definition signing_secret `{ProcessEnv} (options : SignOptions) : string :=
  if truthy_string (secret options)
  then default "" (secret options)
  else JwtModule_secret.

(** The [JwtService] that the module provides to [UsersService].  The
    library refuses to sign with an empty secret; the signer here is total,
    and what is stated of its key is stated for a secret that is set and not
    empty or for a variable that is not set. *)
Definition registered_JwtService `{ProcessEnv} `{Jws} `{Clock} : JwtService :=
  {| signAsync := λ payload options,
       jwt_sign (jwt_claims payload now (expiresIn options)) (signing_secret options) |}.

(** ** UsersService *)

(** [Object.assign(found, dto)] *)
Definition assign_user (found : User) (dto : UpdateUserDto.t) : User :=
  {| User.id := User.id found;
     User.email := default (User.email found) (UpdateUserDto.email dto);
     User.name := default (User.name found) (UpdateUserDto.name dto);
     User.password := default (User.password found) (UpdateUserDto.password dto) |}.

Module UsersService.

Definition getUsers : M (list User) := UserRepo.find.

Definition findUserById (id : string) : M (option User) :=
  UserRepo.findOne_id id.

Definition findUsersByEmail (email : string) : M (option User) :=
  UserRepo.findOne_email email.

(** [this.repo.create(dto)] then [save]. *)
Definition addUser (dto : CreateUserDto.t) (uuid : string) : Mx User :=
  let entity :=
    {| UserRow.email := CreateUserDto.email dto;
       UserRow.name := CreateUserDto.name dto;
       UserRow.password := CreateUserDto.password dto |} in
  UserRepo.insert uuid entity.

Definition updateUser (id : string) (dto : UpdateUserDto.t) : M (option User) :=
  found <- findUserById id ;;
  match found with
  | None => ret None
  | Some found =>
      saved <- UserRepo.save (assign_user found dto) ;;
      ret (Some saved)
  end.

Definition removeUser (id : string) : Mx bool :=
  affected <-! UserRepo.delete id ;;
  retx (truthy_num affected).

(** The payload is [{ user: { email } }], the options are
    [{ secret: process.env.JWT_SECRET, expiresIn: '10m' }], and the result
    is the object [{ token }]. *)
Definition login `{JwtService} `{ProcessEnv} (email : string) : M json :=
  let token :=
    signAsync (JObj [("user", JObj [("email", JStr email)])])
              {| secret := process_env !! "JWT_SECRET"; expiresIn := "10m" |} in
  ret (JObj [("token", JStr token)]).

End UsersService.

(** ** UsersController *)

Module UsersController.

Definition create `{Bcrypt} (dto : CreateUserDto.t) (uuid : string) : Mx Response :=
  existing <-! lift (UsersService.findUsersByEmail (CreateUserDto.email dto)) ;;
  if truthy_obj existing then retx (res_json 400 (message "User already exists"))
  else
    let dto :=
      {| CreateUserDto.email := CreateUserDto.email dto;
         CreateUserDto.name := CreateUserDto.name dto;
         CreateUserDto.password := bcrypt_hash (CreateUserDto.password dto) 10 |} in
    user <-! UsersService.addUser dto uuid ;;
    retx (res_json 201 (JObj [("id", JStr (User.id user));
                              ("email", JStr (User.email user))])).

Definition findAll : M Response :=
  list <- UsersService.getUsers ;;
  ret (res_json 200 (JArr (json_of_user <$> list))).

Definition findOne (id : string) : M Response :=
  u <- UsersService.findUserById id ;;
  ret (match u with
       | Some u => res_json 200 (json_of_user u)
       | None => res_json 404 (message "User not found")
       end).

Definition remove (id : string) : Mx Response :=
  ok <-! UsersService.removeUser id ;;
  retx (if ok then res_send 204 else res_json 404 (message "User not found")).

Definition update `{Bcrypt} (id : string) (dto : UpdateUserDto.t) : M Response :=
  exists_ <- UsersService.findUserById id ;;
  if negb (truthy_obj exists_) then ret (res_json 404 (message "User not found"))
  else
    let dto :=
      if truthy_string (UpdateUserDto.password dto)
      then {| UpdateUserDto.email := UpdateUserDto.email dto;
              UpdateUserDto.name := UpdateUserDto.name dto;
              UpdateUserDto.password :=
                (λ p, bcrypt_hash p 10) <$> UpdateUserDto.password dto |}
      else dto in
    updated <- UsersService.updateUser id dto ;;
    ret (res_json 200 (json_of_nullable_user updated)).

Definition login `{Bcrypt} `{JwtService} `{ProcessEnv} (body : LoginDto.t) : M Response :=
  user <- UsersService.findUsersByEmail (LoginDto.email body) ;;
  match user with
  | None => ret (res_json 404 (message "User not found"))
  | Some user =>
      let ok := bcrypt_compare (LoginDto.password body) (User.password user) in
      if negb ok then ret (res_json 401 (message "Invalid credentials"))
      else
        token <- UsersService.login (User.email user) ;;
        ret (res_json 200 token)
  end.

End UsersController.

(** ** Vocabulary of the properties *)

(** The text that [buyBook] builds from the title and the buyer's id. *)
Definition confirmation (title userId : string) : string :=
  "El libro " +:+ title +:+ " ha sido comprado por el usuario con ID " +:+ userId +:+ ".".

(** Identifiers for the examples: uuids as the database generates them,
    and a text that is not a uuid. *)
Definition id_u1 : string := "11111111-1111-4111-8111-111111111111".
Definition id_u2 : string := "22222222-2222-4222-8222-222222222222".
Definition id_u3 : string := "33333333-3333-4333-8333-333333333333".
Definition id_u9 : string := "99999999-9999-4999-8999-999999999999".
Definition id_b1 : string := "b1b1b1b1-0000-4000-8000-000000000001".
Definition id_b2 : string := "b2b2b2b2-0000-4000-8000-000000000002".
Definition id_b3 : string := "b3b3b3b3-0000-4000-8000-000000000003".
Definition id_b9 : string := "b9b9b9b9-0000-4000-8000-000000000009".
Definition not_a_uuid : string := "nope".

(** A small database for the examples: one user, one book on sale, one
    book already sold to that user. *)
Definition ana : UserRow.t :=
  {| UserRow.email := "a@b.com"; UserRow.name := "Ana";
     UserRow.password := "$2b$10$hash" |}.

Definition hobbit : BookRow.t :=
  {| BookRow.title := "The Hobbit"; BookRow.author := "Tolkien";
     BookRow.price := 10; BookRow.isSold := false; BookRow.buyerId := None |}.

Definition silmarillion : BookRow.t :=
  {| BookRow.title := "The Silmarillion"; BookRow.author := "TOLKIEN";
     BookRow.price := 12; BookRow.isSold := true; BookRow.buyerId := Some id_u1 |}.

Definition shop : DB :=
  {| users := {[ id_u1 := ana ]};
     books := <[ id_b2 := silmarillion ]> {[ id_b1 := hobbit ]} |}.

(** A record as the database gives it back: the decimal column as text. *)
Definition reread (b : Book) : Book :=
  {| Book.id := Book.id b;
     Book.title := Book.title b;
     Book.author := Book.author b;
     Book.price := Text (amount_of (Book.price b));
     Book.isSold := Book.isSold b;
     Book.buyer := Book.buyer b |}.

#[global] Instance User_eq_dec : EqDecision User.
Proof. solve_decision. Defined.

(** The sale invariant on a book record: sold books have a buyer, books on
    sale have none. *)
Definition Book_inv (b : Book) : Prop :=
  (Book.isSold b = true → is_Some (Book.buyer b)) ∧
  (Book.isSold b = false → Book.buyer b = None).

#[global] Instance Book_inv_dec (b : Book) : Decision (Book_inv b).
Proof. unfold Book_inv. apply _. Defined.

(** The invariant on the database: it holds of every stored book, loaded
    with its buyer as [findBookById] and [getBooks] do. *)
Definition DB_inv (db : DB) : Prop :=
  map_Forall (λ k r, Book_inv (BookRepo.entity db k r)) (books db).

#[global] Instance DB_inv_dec (db : DB) : Decision (DB_inv db).
Proof. unfold DB_inv. apply _. Defined.

(** The update [dto] leaves the [isSold] column of book [id] as it is: the
    property is absent from [dto], or repeats the stored value. *)
Definition keeps_isSold (db : DB) (id : string) (dto : UpdateBookDto.t) : Prop :=
  ∀ r, books db !! id = Some r →
       default (BookRow.isSold r) (UpdateBookDto.isSold dto) = BookRow.isSold r.

(** Request bodies for the examples. *)
Definition mark_sold_dto : UpdateBookDto.t :=
  {| UpdateBookDto.title := None; UpdateBookDto.author := None;
     UpdateBookDto.price := None; UpdateBookDto.isSold := Some true |}.

Definition retitle_dto : UpdateBookDto.t :=
  {| UpdateBookDto.title := Some "There and Back Again"; UpdateBookDto.author := None;
     UpdateBookDto.price := None; UpdateBookDto.isSold := None |}.

Definition new_book_dto : CreateBookDto.t :=
  {| CreateBookDto.title := "Dune"; CreateBookDto.author := "Herbert";
     CreateBookDto.price := 9; CreateBookDto.isSold := Some true |}.

(** Two characters that are equal, or the upper- and lower-case forms of
    one letter A-Z (codes 32 apart). *)
Definition same_letter (c d : ascii) : bool :=
  Ascii.eqb c d
  || (is_upper c && Nat.eqb (nat_of_ascii d) (nat_of_ascii c + 32))
  || (is_upper d && Nat.eqb (nat_of_ascii c) (nat_of_ascii d + 32)).

(** Two strings that differ at most in the case of their letters. *)
Fixpoint eq_ignoring_case (s t : string) : bool :=
  match s, t with
  | EmptyString, EmptyString => true
  | String c s', String d t' => same_letter c d && eq_ignoring_case s' t'
  | _, _ => false
  end.

(** Collaborators for the examples: a transparent stand-in for bcrypt, a
    signer that shows its arguments, and an environment with a secret. *)
Definition demo_bcrypt : Bcrypt :=
  {| bcrypt_hash := λ data _, "hash:" +:+ data;
     bcrypt_compare := λ data encrypted, String.eqb ("hash:" +:+ data) encrypted |}.

Definition demo_jwt : JwtService :=
  {| signAsync := λ _ options,
       "jwt/" +:+ default "" (secret options) +:+ "/" +:+ expiresIn options |}.

Definition demo_env : ProcessEnv :=
  {| process_env := {[ "JWT_SECRET" := "s3cret" ]} |}.

Definition bea : UserRow.t :=
  {| UserRow.email := "b@b.com"; UserRow.name := "Bea";
     UserRow.password := "hash:12345678" |}.

Definition members : DB :=
  {| users := <[ id_u2 := bea ]> {[ id_u1 := ana ]}; books := ∅ |}.

Definition signup_ana : CreateUserDto.t :=
  {| CreateUserDto.email := "a@b.com"; CreateUserDto.name := "Ana";
     CreateUserDto.password := "12345678" |}.

Definition signup_carl : CreateUserDto.t :=
  {| CreateUserDto.email := "c@b.com"; CreateUserDto.name := "Carl";
     CreateUserDto.password := "12345678" |}.

(** Some stored user has the e-mail address [email]. *)
Definition email_registered (db : DB) (email : string) : Prop :=
  ∃ k r, users db !! k = Some r ∧ UserRow.email r = email.

Definition login_bea : LoginDto.t :=
  {| LoginDto.email := "b@b.com"; LoginDto.password := "12345678" |}.
Definition login_wrong : LoginDto.t :=
  {| LoginDto.email := "b@b.com"; LoginDto.password := "wrong" |}.
Definition login_unknown : LoginDto.t :=
  {| LoginDto.email := "z@b.com"; LoginDto.password := "12345678" |}.

Definition rename_bea : UpdateUserDto.t :=
  {| UpdateUserDto.email := None; UpdateUserDto.name := Some "Beatriz";
     UpdateUserDto.password := None |}.

(** A database with two users and the two books of [shop]. *)
Definition market : DB :=
  {| users := <[ id_u2 := bea ]> {[ id_u1 := ana ]};
     books := <[ id_b2 := silmarillion ]> {[ id_b1 := hobbit ]} |}.

Definition unsell_dto : UpdateBookDto.t :=
  {| UpdateBookDto.title := None; UpdateBookDto.author := None;
     UpdateBookDto.price := None; UpdateBookDto.isSold := Some false |}.

(** No two stored users share an e-mail address. *)
Definition emails_unique (db : DB) : Prop :=
  ∀ k1 k2 r1 r2,
    users db !! k1 = Some r1 → users db !! k2 = Some r2 →
    UserRow.email r1 = UserRow.email r2 → k1 = k2.

Definition login_carl : LoginDto.t :=
  {| LoginDto.email := "c@b.com"; LoginDto.password := "12345678" |}.

Definition repassword_dto : UpdateUserDto.t :=
  {| UpdateUserDto.email := None; UpdateUserDto.name := None;
     UpdateUserDto.password := Some "n3w-pass" |}.

Definition blank_password_dto : UpdateUserDto.t :=
  {| UpdateUserDto.email := None; UpdateUserDto.name := None;
     UpdateUserDto.password := Some "" |}.

(** Some stored book names the user [id] as its buyer. *)
Definition has_bought (db : DB) (id : string) : Prop :=
  ∃ k r, books db !! k = Some r ∧ BookRow.buyerId r = Some id.

(** Stand-ins for the token primitives in the examples: an encoding that
    lists the names of the claims, a signature that shows its key; a clock
    reading; an environment in which [JWT_SECRET] is not set. *)
Definition demo_jws : Jws :=
  {| base64url := λ j, String.concat "," (json_keys j);
     hmac_sha256 := λ key input, "hmac[" +:+ key +:+ "]" |}.

Definition demo_clock : Clock := {| now := 1700000000 |}.

Definition unset_env : ProcessEnv := {| process_env := ∅ |}.

(** * Properties *)

(** ** Running the monad *)

Ltac run :=
  unfold BooksService.buyBook, BooksService.markBookAsSold, BooksService.updateBook,
    BooksService.addBook, BooksService.removeBook, BooksService.findBookById,
    BooksService.findBookByAuthor, BooksService.getBooks,
    BookRepo.findOne_id, BookRepo.save, BookRepo.insert, BookRepo.delete,
    BookRepo.find_with_buyer, BookRepo.no_such_row,
    UserRepo.findOne_id, UserRepo.findOne_email, UserRepo.save, UserRepo.insert,
    UserRepo.delete, UserRepo.find,
    try_catch, bindx, lift, throw, retx, bind, ret, gets, modify in *;
  cbn [fst snd] in *.

Lemma confirmation_truthy title userId :
  truthy_string (Some (confirmation title userId)) = true.
Proof. reflexivity. Qed.

(** What [buyBook] returns and leaves behind, by cases on the two lookups. *)
Lemma buyBook_run (db : DB) (userId bookId : string) :
  BooksService.buyBook userId bookId db =
    match books db !! bookId with
    | None => (BookRepo.no_such_row bookId None, db)
    | Some r =>
        if BookRow.isSold r then (Returned None, db)
        else match users db !! userId with
             | Some u =>
                 (Returned (Some (confirmation (BookRow.title r) userId)),
                  set_books (<[bookId :=
                    {| BookRow.title := BookRow.title r;
                       BookRow.author := BookRow.author r;
                       BookRow.price := BookRow.price r;
                       BookRow.isSold := true;
                       BookRow.buyerId := Some userId |}]>) db)
             | None => (Returned None, db)
             end
    end.
Proof.
  run. destruct (books db !! bookId) as [r|] eqn:Hb; cbn.
  - destruct (BookRow.isSold r) eqn:Hs; cbn; [done|].
    rewrite Hb. cbn. by destruct (users db !! userId) as [u|].
  - by destruct (is_uuid bookId).
Qed.

(** What POST /books/:bookId/buy/:userId makes of the result of [buyBook]. *)
Lemma buy_run (db : DB) (bookId userId : string) :
  BooksController.buy bookId userId db =
    (match (BooksService.buyBook userId bookId db).1 with
     | Returned msg =>
         if truthy_string msg
         then res_json 200 (JObj [("message", json_of_string msg)])
         else res_json 404 (message "Book not found or already sold")
     | Thrown _ => res_json 500 (message "Error buying book")
     end,
     (BooksService.buyBook userId bookId db).2).
Proof.
  unfold BooksController.buy, try_catch, bindx, retx, throw, bind, ret.
  by destruct (BooksService.buyBook userId bookId db) as [[msg|e] db'].
Qed.

(** C1.  When the book [bookId] is stored with [isSold = false] and [userId]
    is the identifier of a stored user, [buyBook(userId, bookId)] returns
    the text "El libro <title> ha sido comprado por el usuario con ID
    <userId>." built from the stored title and the buyer's id, and
    POST /books/:bookId/buy/:userId answers 200 with the body
    [{ message: <that text> }]. *)
Theorem buyBook_available_confirms
    (db : DB) (userId bookId : string) (r : BookRow.t) (u : UserRow.t) :
  books db !! bookId = Some r →
  BookRow.isSold r = false →
  users db !! userId = Some u →
  (BooksService.buyBook userId bookId db).1 =
    Returned (Some ("El libro " +:+ BookRow.title r +:+
                    " ha sido comprado por el usuario con ID " +:+ userId +:+ ".")) ∧
  (BooksController.buy bookId userId db).1 =
    {| status := 200;
       body := Some (JObj [("message",
                 JStr ("El libro " +:+ BookRow.title r +:+
                       " ha sido comprado por el usuario con ID " +:+ userId +:+ "."))]) |}.
Proof.
  intros Hb Hs Hu.
  assert (Hrun : (BooksService.buyBook userId bookId db).1 =
                 Returned (Some (confirmation (BookRow.title r) userId))).
  { rewrite buyBook_run, Hb, Hu, Hs. done. }
  split; [exact Hrun|].
  rewrite buy_run, Hrun. cbn [fst]. by rewrite confirmation_truthy.
Qed.

Lemma buyBook_available_confirms_witness :
  books shop !! id_b1 = Some hobbit ∧
  BookRow.isSold hobbit = false ∧
  users shop !! id_u1 = Some ana ∧
  (BooksService.buyBook id_u1 id_b1 shop).1 =
    Returned (Some ("El libro The Hobbit ha sido comprado por el usuario con ID "
                    +:+ id_u1 +:+ ".")) ∧
  (BooksController.buy id_b1 id_u1 shop).1 =
    {| status := 200;
       body := Some (JObj [("message",
                 JStr ("El libro The Hobbit ha sido comprado por el usuario con ID "
                       +:+ id_u1 +:+ "."))]) |}.
Proof.
  split; [vm_compute; reflexivity|].
  split; [reflexivity|].
  split; [vm_compute; reflexivity|].
  apply (buyBook_available_confirms shop id_u1 id_b1 hobbit ana);
    vm_compute; reflexivity.
Defined.

(** A successful purchase writes [isSold = true] and the buyer's id into
    the row of the book and touches nothing else. *)
Lemma buyBook_marks_sold (db : DB) (userId bookId : string) (r : BookRow.t) (u : UserRow.t) :
  books db !! bookId = Some r →
  BookRow.isSold r = false →
  users db !! userId = Some u →
  let db' := (BooksService.buyBook userId bookId db).2 in
  users db' = users db ∧
  (∃ r', books db' !! bookId = Some r' ∧ BookRow.isSold r' = true ∧
         BookRow.buyerId r' = Some userId ∧ BookRow.title r' = BookRow.title r) ∧
  (∀ k, k ≠ bookId → books db' !! k = books db !! k).
Proof.
  intros Hb Hs Hu. rewrite buyBook_run, Hb, Hu, Hs. cbn.
  split; [done|]. split.
  - eexists. rewrite lookup_insert_eq. eauto.
  - intros k Hk. by rewrite lookup_insert_ne.
Qed.



(** ** The sale invariant *)

(** Loading a book looks at the [users] table only. *)
Lemma entity_set_books f (db : DB) (k : string) (r : BookRow.t) :
  BookRepo.entity (set_books f db) k r = BookRepo.entity db k r.
Proof. reflexivity. Qed.

Lemma DB_inv_write (db : DB) (k : string) (r : BookRow.t) :
  DB_inv db →
  Book_inv (BookRepo.entity db k r) →
  DB_inv (set_books (<[k := r]>) db).
Proof.
  unfold DB_inv. intros Hdb Hr. cbn [books set_books].
  apply map_Forall_insert_2; [done|].
  eapply map_Forall_impl; [exact Hdb|]. done.
Qed.

Lemma DB_inv_written (db : DB) (k : string) (r : BookRow.t) :
  DB_inv (set_books (<[k := r]>) db) → Book_inv (BookRepo.entity db k r).
Proof.
  unfold DB_inv. cbn [books set_books]. intros H.
  apply (map_Forall_lookup_1 _ _ k r) in H; [done|]. apply lookup_insert_eq.
Qed.

(** Saving a loaded book and loading it again gives back its buyer. *)
Lemma buyer_reload (db : DB) (k : string) (r : BookRow.t) :
  (uid ← User.id <$> Book.buyer (BookRepo.entity db k r);
   UserRepo.entity uid <$> users db !! uid) =
  Book.buyer (BookRepo.entity db k r).
Proof.
  cbn. destruct (BookRow.buyerId r) as [uid|]; cbn; [|done].
  destruct (users db !! uid) as [ur|] eqn:Hu; cbn; [|done].
  by rewrite Hu.
Qed.

Lemma addBook_run (dto : CreateBookDto.t) (uuid : string) (db : DB) :
  BooksService.addBook dto uuid db =
    let r := {| BookRow.title := CreateBookDto.title dto;
                BookRow.author := CreateBookDto.author dto;
                BookRow.price := CreateBookDto.price dto;
                BookRow.isSold := false;
                BookRow.buyerId := None |} in
    (BookRepo.created uuid r, set_books (<[uuid := r]>) db).
Proof. reflexivity. Qed.

Lemma markBookAsSold_run (bookId userId : string) (db : DB) :
  BooksService.markBookAsSold bookId userId db =
    match books db !! bookId with
    | None => (BookRepo.no_such_row bookId None, db)
    | Some r =>
        match users db !! userId with
        | Some u =>
            (Returned (Some (sold_to (BookRepo.entity db bookId r)
                                     (UserRepo.entity userId u))),
             set_books (<[bookId :=
               {| BookRow.title := BookRow.title r;
                  BookRow.author := BookRow.author r;
                  BookRow.price := BookRow.price r;
                  BookRow.isSold := true;
                  BookRow.buyerId := Some userId |}]>) db)
        | None => (Returned None, db)
        end
    end.
Proof.
  run. destruct (books db !! bookId) as [r|]; cbn.
  - by destruct (users db !! userId) as [u|]; cbn.
  - by destruct (is_uuid bookId).
Qed.

Lemma updateBook_run (id : string) (dto : UpdateBookDto.t) (db : DB) :
  BooksService.updateBook id dto db =
    match books db !! id with
    | Some r =>
        let b := assign_book (BookRepo.entity db id r) dto in
        (Returned (Some b), set_books (<[id := BookRepo.row b]>) db)
    | None => (BookRepo.no_such_row id None, db)
    end.
Proof.
  run. destruct (books db !! id) as [r|]; cbn; [done|].
  by destruct (is_uuid id).
Qed.

(** A lookup that throws or finds nothing leaves the database alone. *)
Lemma no_such_row_inv {A} (id : string) (none : A) (db : DB) :
  DB_inv db → DB_inv (BookRepo.no_such_row id none, db).2.
Proof. done. Qed.

Lemma addBook_inv (dto : CreateBookDto.t) (uuid : string) (db : DB) :
  DB_inv db →
  DB_inv (BooksService.addBook dto uuid db).2 ∧
  Book_inv (BooksService.addBook dto uuid db).1.
Proof.
  intros Hdb. rewrite addBook_run. cbn. split.
  - apply DB_inv_write; [done|]. by split.
  - by split.
Qed.

Lemma markBookAsSold_inv (bookId userId : string) (db : DB) :
  DB_inv db →
  DB_inv (BooksService.markBookAsSold bookId userId db).2 ∧
  (∀ b, (BooksService.markBookAsSold bookId userId db).1 = Returned (Some b) →
        Book_inv b).
Proof.
  intros Hdb. rewrite markBookAsSold_run.
  destruct (books db !! bookId) as [r|];
    [|split; [done|unfold BookRepo.no_such_row; by destruct (is_uuid bookId)]].
  destruct (users db !! userId) as [u|] eqn:Hu; [|done].
  cbn. split.
  - apply DB_inv_write; [done|]. split; cbn; [|done].
    intros _. rewrite Hu. by eexists.
  - intros b [= <-]. split; cbn; [by eexists|done].
Qed.

Lemma buyBook_inv (userId bookId : string) (db : DB) :
  DB_inv db → DB_inv (BooksService.buyBook userId bookId db).2.
Proof.
  intros Hdb. rewrite buyBook_run.
  destruct (books db !! bookId) as [r|]; [|done].
  destruct (BookRow.isSold r); [done|].
  destruct (users db !! userId) as [u|] eqn:Hu; [|done]. cbn.
  apply DB_inv_write; [done|]. split; cbn; [|done].
  intros _. rewrite Hu. by eexists.
Qed.

(** The entity that [updateBook] writes, loaded again. *)
Lemma updateBook_reload (db : DB) (id : string) (r : BookRow.t) (dto : UpdateBookDto.t) :
  BookRepo.entity db id (BookRepo.row (assign_book (BookRepo.entity db id r) dto)) =
  reread (assign_book (BookRepo.entity db id r) dto).
Proof.
  pose proof (buyer_reload db id r) as Hbuyer.
  unfold BookRepo.entity, BookRepo.row, assign_book, reread in *. cbn in *.
  by rewrite Hbuyer.
Qed.

Lemma updateBook_inv_iff (id : string) (dto : UpdateBookDto.t) (db : DB) :
  DB_inv db →
  (DB_inv (BooksService.updateBook id dto db).2 ↔ keeps_isSold db id dto).
Proof.
  intros Hdb. rewrite updateBook_run. unfold keeps_isSold.
  destruct (books db !! id) as [r|] eqn:Hr; cbn; [|naive_solver].
  assert (Hold : Book_inv (BookRepo.entity db id r)).
  { by apply (map_Forall_lookup_1 _ _ id r) in Hdb. }
  split.
  - intros Hnew r' [= <-]. apply DB_inv_written in Hnew.
    rewrite updateBook_reload in Hnew.
    destruct Hold as [Ht Hf], Hnew as [Ht' Hf']. cbn in *.
    destruct (UpdateBookDto.isSold dto) as [v|]; cbn in *; [|done].
    destruct v, (BookRow.isSold r); try done.
    + specialize (Hf eq_refl). specialize (Ht' eq_refl). rewrite Hf in Ht'.
      by destruct Ht'.
    + specialize (Ht eq_refl). specialize (Hf' eq_refl). rewrite Hf' in Ht.
      by destruct Ht.
  - intros Hkeep. specialize (Hkeep r eq_refl).
    apply DB_inv_write; [done|]. rewrite updateBook_reload.
    destruct Hold as [Ht Hf]. split; cbn in *; rewrite Hkeep; done.
Qed.




(** ** Creating a book *)

(** C4.  For every request body, [addBook] stores a new row under the
    generated identifier with [isSold = false], whatever [isSold] the body
    carries: the record it returns and the record read back by
    [findBookById] (the same record, with the price as the database's text)
    have [isSold = false], the other columns are those of the body, and no
    other row is touched. *)
Theorem addBook_forces_isSold_false (dto : CreateBookDto.t) (uuid : string) (db : DB) :
  let b := (BooksService.addBook dto uuid db).1 in
  let db' := (BooksService.addBook dto uuid db).2 in
  Book.isSold b = false ∧
  Book.id b = uuid ∧
  Book.title b = CreateBookDto.title dto ∧
  Book.author b = CreateBookDto.author dto ∧
  Book.price b = Number (CreateBookDto.price dto) ∧
  (∃ r, books db' !! uuid = Some r ∧ BookRow.isSold r = false) ∧
  (BooksService.findBookById uuid db').1 = Returned (Some (reread b)) ∧
  (∀ k, k ≠ uuid → books db' !! k = books db !! k) ∧
  users db' = users db.
Proof.
  rewrite addBook_run. cbn.
  repeat (split; [reflexivity|]).
  split; [eexists; by rewrite lookup_insert_eq|].
  split; [run; cbn; by rewrite lookup_insert_eq|].
  split; [|reflexivity].
  intros k Hk. by rewrite lookup_insert_ne.
Qed.

(** The body [{ ..., isSold: true }] still creates a book on sale. *)
Example addBook_ignores_isSold_true :
  Book.isSold (BooksService.addBook new_book_dto id_b3 shop).1 = false ∧
  BookRow.isSold <$> books (BooksService.addBook new_book_dto id_b3 shop).2 !! id_b3 = Some false.
Proof. split; vm_compute; reflexivity. Qed.

(** ** Case-insensitive author match *)

Lemma nat_of_ascii_inj (c d : ascii) : nat_of_ascii c = nat_of_ascii d → c = d.
Proof.
  intros H. rewrite <- (ascii_nat_embedding c), <- (ascii_nat_embedding d).
  by rewrite H.
Qed.

Lemma nat_of_lower_char (c : ascii) :
  nat_of_ascii (lower_char c) =
    if is_upper c then (nat_of_ascii c + 32)%nat else nat_of_ascii c.
Proof.
  unfold lower_char. destruct (is_upper c) eqn:Hup; [|done].
  apply nat_ascii_embedding. unfold is_upper in Hup.
  apply andb_true_iff in Hup as [_ Hle]. apply Nat.leb_le in Hle. lia.
Qed.

Ltac case_codes :=
  repeat match goal with
         | |- context [(?a <=? ?b)%nat] => destruct (Nat.leb_spec a b)
         | |- context [(?a =? ?b)%nat] => destruct (Nat.eqb_spec a b)
         end;
  cbn; intros; try done; try lia.

Lemma same_letter_lower (c d : ascii) :
  same_letter c d = true ↔ lower_char c = lower_char d.
Proof.
  split.
  - intros H. apply nat_of_ascii_inj. rewrite !nat_of_lower_char.
    unfold same_letter, is_upper in *.
    destruct (Ascii.eqb_spec c d) as [->|Hne]; [done|].
    revert H. case_codes.
  - intros H. apply (f_equal nat_of_ascii) in H. rewrite !nat_of_lower_char in H.
    unfold same_letter, is_upper in *.
    destruct (Ascii.eqb_spec c d) as [->|Hne]; [done|].
    assert (nat_of_ascii c ≠ nat_of_ascii d) by (intros ?; by apply Hne, nat_of_ascii_inj).
    revert H. case_codes.
Qed.

Lemma eq_ignoring_case_LOWER (s t : string) :
  eq_ignoring_case s t = true ↔ LOWER s = LOWER t.
Proof.
  revert t. induction s as [|c s IH]; intros [|d t]; cbn; try done.
  rewrite andb_true_iff, same_letter_lower, IH. split.
  - by intros [-> ->].
  - by intros [= -> ->].
Qed.

Lemma elem_of_findBookByAuthor (db : DB) (author : string) (b : Book) :
  b ∈ (BooksService.findBookByAuthor author db).1 ↔
  ∃ k r, books db !! k = Some r ∧ b = BookRepo.entity_plain k r ∧
         LOWER (BookRow.author r) = LOWER author.
Proof.
  run. rewrite list_elem_of_In, filter_In, <- list_elem_of_In, list_elem_of_fmap.
  split.
  - intros [([k r] & -> & Hin) Heq]. apply elem_of_map_to_list in Hin.
    apply String.eqb_eq in Heq. by exists k, r.
  - intros (k & r & Hr & -> & Heq). split.
    + exists (k, r). split; [done|]. by apply elem_of_map_to_list.
    + by apply String.eqb_eq.
Qed.



(** Both stored books, written "Tolkien" and "TOLKIEN", answer the query
    "tolkien"; no book answers "tolkie". *)
Example findBookByAuthor_tolkien :
  Book.id <$> (BooksService.findBookByAuthor "tolkien" shop).1 = [id_b1; id_b2] ∧
  (BooksService.findBookByAuthor "tolkie" shop).1 = [].
Proof. split; vm_compute; reflexivity. Qed.

(** ** Looking a user up by e-mail *)

Lemma findOne_email_Some (db : DB) (email : string) (u : User) :
  (UserRepo.findOne_email email db).1 = Some u →
  users db !! User.id u = Some (UserRepo.row u) ∧ User.email u = email.
Proof.
  run. intros Hfind. apply find_some in Hfind as [Hin Heq].
  apply bool_decide_eq_true in Heq.
  apply list_elem_of_In, list_elem_of_fmap in Hin as ([k r] & -> & Hin).
  apply elem_of_map_to_list in Hin. split; [|done].
  cbn. rewrite Hin. by destruct r.
Qed.

Lemma findOne_email_None (db : DB) (email : string) :
  (UserRepo.findOne_email email db).1 = None ↔ ¬ email_registered db email.
Proof.
  run. split.
  - intros Hfind (k & r & Hr & Heq).
    assert (Hin : In (UserRepo.entity k r)
              ((λ kr, UserRepo.entity kr.1 kr.2) <$> map_to_list (users db))).
    { apply list_elem_of_In, list_elem_of_fmap. exists (k, r).
      split; [done|]. by apply elem_of_map_to_list. }
    apply (find_none _ _ Hfind) in Hin.
    by apply bool_decide_eq_false in Hin.
  - intros Hno.
    destruct (List.find _ _) as [u|] eqn:Hfind; [|done].
    destruct Hno. apply (findOne_email_Some db email u) in Hfind as [Hu He].
    by exists (User.id u), (UserRepo.row u).
Qed.

Lemma findOne_email_registered (db : DB) (email : string) :
  email_registered db email →
  ∃ u, (UserRepo.findOne_email email db).1 = Some u ∧
       users db !! User.id u = Some (UserRepo.row u) ∧ User.email u = email.
Proof.
  intros Hreg. destruct ((UserRepo.findOne_email email db).1) as [u|] eqn:Hfind.
  - exists u. split; [done|]. by apply findOne_email_Some.
  - by apply findOne_email_None in Hfind.
Qed.

Lemma findOne_email_state (db : DB) (email : string) :
  (UserRepo.findOne_email email db).2 = db.
Proof. reflexivity. Qed.

(** ** Signing up *)

Lemma email_taken_spec (db : DB) (email : string) :
  UserRepo.email_taken email db = true ↔ email_registered db email.
Proof.
  unfold UserRepo.email_taken. rewrite existsb_exists. split.
  - intros ([k r] & Hin & Heq). apply bool_decide_eq_true in Heq.
    apply list_elem_of_In, elem_of_map_to_list in Hin. by exists k, r.
  - intros (k & r & Hr & Heq). exists (k, r). split.
    + by apply list_elem_of_In, elem_of_map_to_list.
    + by apply bool_decide_eq_true.
Qed.

Lemma email_not_taken (db : DB) (email : string) :
  ¬ email_registered db email → UserRepo.email_taken email db = false.
Proof.
  intros Hno. destruct (UserRepo.email_taken email db) eqn:Htaken; [|done].
  by apply email_taken_spec in Htaken.
Qed.

(** POST /users for an address that is registered. *)
Lemma create_taken_run `{Bcrypt} (db : DB) (dto : CreateUserDto.t) (uuid : string) :
  email_registered db (CreateUserDto.email dto) →
  UsersController.create dto uuid db =
    (Returned (res_json 400 (message "User already exists")), db).
Proof.
  intros Hreg.
  destruct (findOne_email_registered db _ Hreg) as (u & Hfind & _).
  pose proof (findOne_email_state db (CreateUserDto.email dto)) as Hst.
  unfold UsersController.create, UsersService.findUsersByEmail, bindx, lift, retx, bind, ret.
  destruct (UserRepo.findOne_email (CreateUserDto.email dto) db) as [existing db'].
  cbn in Hfind, Hst. by subst.
Qed.

(** POST /users for an address that is not registered. *)
Lemma create_fresh_run `{Bcrypt} (db : DB) (dto : CreateUserDto.t) (uuid : string) :
  ¬ email_registered db (CreateUserDto.email dto) →
  UsersController.create dto uuid db =
    (Returned (res_json 201 (JObj [("id", JStr uuid);
                                   ("email", JStr (CreateUserDto.email dto))])),
     set_users (<[uuid :=
       {| UserRow.email := CreateUserDto.email dto;
          UserRow.name := CreateUserDto.name dto;
          UserRow.password := bcrypt_hash (CreateUserDto.password dto) 10 |}]>) db).
Proof.
  intros Hno. pose proof (email_not_taken db _ Hno) as Hfree.
  apply findOne_email_None in Hno.
  pose proof (findOne_email_state db (CreateUserDto.email dto)) as Hst.
  unfold UsersController.create, UsersService.findUsersByEmail, UsersService.addUser,
    UserRepo.insert, bindx, lift, retx, bind, ret.
  destruct (UserRepo.findOne_email (CreateUserDto.email dto) db) as [existing db'].
  cbn in Hno, Hst. subst. cbn. by rewrite Hfree.
Qed.

(** C6.  When some stored user already has the e-mail address of the
    request body, POST /users answers 400 with the body
    [{ message: "User already exists" }] and the database, the [users]
    table in particular, is left as it was: the lookup decides before any
    row is written. *)
Theorem create_duplicate_rejected `{Bcrypt}
    (db : DB) (dto : CreateUserDto.t) (uuid : string) :
  email_registered db (CreateUserDto.email dto) →
  (UsersController.create dto uuid db).1 =
    Returned {| status := 400;
                body := Some (JObj [("message", JStr "User already exists")]) |} ∧
  (UsersController.create dto uuid db).2 = db ∧
  users (UsersController.create dto uuid db).2 = users db.
Proof. intros Hreg. by rewrite (create_taken_run db dto uuid Hreg). Qed.

Lemma create_duplicate_rejected_witness :
  email_registered members "a@b.com" ∧
  (@UsersController.create demo_bcrypt signup_ana id_u3 members).1 =
    Returned {| status := 400;
                body := Some (JObj [("message", JStr "User already exists")]) |} ∧
  (@UsersController.create demo_bcrypt signup_ana id_u3 members).2 = members.
Proof.
  assert (Hreg : email_registered members "a@b.com").
  { exists id_u1, ana. split; vm_compute; reflexivity. }
  split; [exact Hreg|].
  destruct (@create_duplicate_rejected demo_bcrypt members signup_ana id_u3 Hreg)
    as (Hres & Hdb & _).
  split; [exact Hres | exact Hdb].
Defined.

(** ** Logging in *)

Lemma UsersService_login_run `{JwtService} `{ProcessEnv} (email : string) (db : DB) :
  UsersService.login email db =
    (JObj [("token",
            JStr (signAsync (JObj [("user", JObj [("email", JStr email)])])
                            {| secret := process_env !! "JWT_SECRET";
                               expiresIn := "10m" |}))],
     db).
Proof. reflexivity. Qed.

(** C7.  POST /users/login answers 404 when no stored user has the e-mail
    address of the body; 401 with [{ message: "Invalid credentials" }] when
    the address is registered and the supplied password does not match the
    hash stored with it; and 200 with a body [{ token }] when the address is
    registered and the password matches the stored hash, the token being
    the one the service issues for that address.  None of the three changes
    the database. *)
Theorem login_responses `{Bcrypt} `{JwtService} `{ProcessEnv}
    (db : DB) (body_ : LoginDto.t) :
  (¬ email_registered db (LoginDto.email body_) →
     status (UsersController.login body_ db).1 = 404) ∧
  (email_registered db (LoginDto.email body_) →
     (∀ k r, users db !! k = Some r → UserRow.email r = LoginDto.email body_ →
             bcrypt_compare (LoginDto.password body_) (UserRow.password r) = false) →
     (UsersController.login body_ db).1 =
       {| status := 401;
          body := Some (JObj [("message", JStr "Invalid credentials")]) |}) ∧
  (email_registered db (LoginDto.email body_) →
     (∀ k r, users db !! k = Some r → UserRow.email r = LoginDto.email body_ →
             bcrypt_compare (LoginDto.password body_) (UserRow.password r) = true) →
     ∃ token,
       (UsersController.login body_ db).1 =
         {| status := 200; body := Some (JObj [("token", JStr token)]) |} ∧
       (UsersService.login (LoginDto.email body_) db).1 = JObj [("token", JStr token)]) ∧
  (UsersController.login body_ db).2 = db.
Proof.
  pose proof (findOne_email_state db (LoginDto.email body_)) as Hst.
  unfold UsersController.login, UsersService.findUsersByEmail, bind.
  destruct (UserRepo.findOne_email (LoginDto.email body_) db) as [user db'] eqn:Hrun.
  cbn in Hst. subst db'.
  assert (Hfind : (UserRepo.findOne_email (LoginDto.email body_) db).1 = user)
    by (by rewrite Hrun).
  clear Hrun. repeat split.
  - intros Hno. apply findOne_email_None in Hno. rewrite Hno in Hfind. by subst.
  - intros Hreg Hbad. destruct (findOne_email_registered db _ Hreg) as (u & Hu & Hrow & He).
    rewrite Hu in Hfind. subst user.
    specialize (Hbad _ _ Hrow He). cbn in Hbad. by rewrite Hbad.
  - intros Hreg Hgood. destruct (findOne_email_registered db _ Hreg) as (u & Hu & Hrow & He).
    rewrite Hu in Hfind. subst user.
    specialize (Hgood _ _ Hrow He). cbn in Hgood. rewrite Hgood, <- He.
    eexists. split; reflexivity.
  - destruct user as [u|]; [|done].
    by destruct (bcrypt_compare _ _).
Qed.

Lemma login_responses_witness :
  status (@UsersController.login demo_bcrypt demo_jwt demo_env login_unknown members).1 = 404 ∧
  (@UsersController.login demo_bcrypt demo_jwt demo_env login_wrong members).1 =
    {| status := 401;
       body := Some (JObj [("message", JStr "Invalid credentials")]) |} ∧
  ∃ token,
    (@UsersController.login demo_bcrypt demo_jwt demo_env login_bea members).1 =
      {| status := 200; body := Some (JObj [("token", JStr token)]) |}.
Proof.
  assert (Hbea : ∀ k r, users members !! k = Some r → UserRow.email r = "b@b.com" → r = bea).
  { intros k r Hr He. unfold members in Hr. cbn in Hr.
    apply lookup_insert_Some in Hr as [[_ <-]|[_ Hr]]; [done|].
    apply lookup_singleton_Some in Hr as [_ <-]. discriminate He. }
  assert (Hreg : email_registered members "b@b.com").
  { exists id_u2, bea. split; vm_compute; reflexivity. }
  split.
  - apply (proj1 (@login_responses demo_bcrypt demo_jwt demo_env members login_unknown)).
    intros (k & r & Hr & He). unfold members in Hr. cbn in Hr.
    apply lookup_insert_Some in Hr as [[_ <-]|[_ Hr]]; [discriminate He|].
    apply lookup_singleton_Some in Hr as [_ <-]. discriminate He.
  - split.
    + apply (proj1 (proj2 (@login_responses demo_bcrypt demo_jwt demo_env members login_wrong)));
        [exact Hreg|].
      intros k r Hr He. rewrite (Hbea k r Hr He). reflexivity.
    + destruct (proj1 (proj2 (proj2
        (@login_responses demo_bcrypt demo_jwt demo_env members login_bea))) Hreg)
        as (token & Hres & _).
      * intros k r Hr He. rewrite (Hbea k r Hr He). reflexivity.
      * by exists token.
Defined.

(** ** Deleting *)

Lemma is_buyer_spec (db : DB) (id : string) :
  UserRepo.is_buyer id db = true ↔ has_bought db id.
Proof.
  unfold UserRepo.is_buyer. rewrite existsb_exists. split.
  - intros ([k r] & Hin & Heq). apply bool_decide_eq_true in Heq.
    apply list_elem_of_In, elem_of_map_to_list in Hin. by exists k, r.
  - intros (k & r & Hr & Heq). exists (k, r). split.
    + by apply list_elem_of_In, elem_of_map_to_list.
    + by apply bool_decide_eq_true.
Qed.

Lemma is_not_buyer (db : DB) (id : string) :
  ¬ has_bought db id → UserRepo.is_buyer id db = false.
Proof.
  intros Hno. destruct (UserRepo.is_buyer id db) eqn:Hb; [|done].
  by apply is_buyer_spec in Hb.
Qed.

Lemma removeUser_run (id : string) (db : DB) :
  UsersService.removeUser id db =
    match users db !! id with
    | Some _ =>
        if UserRepo.is_buyer id db then (Thrown ForeignKeyViolation, db)
        else (Returned true, set_users (delete id) db)
    | None => (Returned false, db)
    end.
Proof.
  unfold UsersService.removeUser. run.
  destruct (users db !! id); [|done]. by destruct (UserRepo.is_buyer id db).
Qed.

Lemma removeBook_run (id : string) (db : DB) :
  BooksService.removeBook id db =
    match books db !! id with
    | Some _ => (Returned true, set_books (delete id) db)
    | None => (BookRepo.no_such_row id false, db)
    end.
Proof. run. destruct (books db !! id); [done|]. by destruct (is_uuid id). Qed.

Lemma UsersController_remove_run (id : string) (db : DB) :
  UsersController.remove id db =
    (match (UsersService.removeUser id db).1 with
     | Returned ok =>
         Returned (if ok then res_send 204 else res_json 404 (message "User not found"))
     | Thrown e => Thrown e
     end,
     (UsersService.removeUser id db).2).
Proof.
  unfold UsersController.remove, bindx, retx, throw, bind, ret.
  by destruct (UsersService.removeUser id db) as [[ok|e] db'].
Qed.

Lemma BooksController_remove_run (id : string) (db : DB) :
  BooksController.remove id db =
    (match (BooksService.removeBook id db).1 with
     | Returned ok =>
         Returned (if ok then res_send 204 else res_json 404 (message "Book not found"))
     | Thrown e => Thrown e
     end,
     (BooksService.removeBook id db).2).
Proof.
  unfold BooksController.remove, bindx, retx, throw, bind, ret.
  by destruct (BooksService.removeBook id db) as [[ok|e] db'].
Qed.



(** ** Issuing a token *)

Lemma span_10m : span_seconds "10m" = Some 600%nat.
Proof. reflexivity. Qed.




(** ** What the user endpoints send back *)

Lemma json_of_user_password (u : User) :
  json_get "password" (json_of_user u) = Some (JStr (User.password u)).
Proof. reflexivity. Qed.

Lemma update_found_run `{Bcrypt} (db : DB) (id : string) (r : UserRow.t) (dto : UpdateUserDto.t) :
  users db !! id = Some r →
  ∃ u, (UsersController.update id dto db).1 = res_json 200 (json_of_user u) ∧
       User.id u = id ∧
       users (UsersController.update id dto db).2 !! id = Some (UserRepo.row u).
Proof.
  intros Hr. unfold UsersController.update, UsersService.updateUser,
    UsersService.findUserById. run. rewrite Hr. cbn. rewrite Hr. cbn.
  eexists. split; [reflexivity|]. split; [reflexivity|].
  by rewrite lookup_insert_eq.
Qed.



(** * Further properties of the services and controllers *)

(** ** Selling *)

(** X1.  [markBookAsSold] has no guard on [isSold]: for a stored book and a
    stored user it always stores [isSold = true] with that user as buyer,
    so an already sold book passes to the new buyer.  The record it returns
    is the one [findBookById] reads back; title, author and price, the other
    books and the users are untouched. *)
Theorem markBookAsSold_ignores_isSold
    (db : DB) (bookId userId : string) (r : BookRow.t) (u : UserRow.t) :
  books db !! bookId = Some r →
  users db !! userId = Some u →
  let res := BooksService.markBookAsSold bookId userId db in
  (∃ b, res.1 = Returned (Some b) ∧
        Book.id b = bookId ∧ Book.isSold b = true ∧
        Book.buyer b = Some (UserRepo.entity userId u) ∧
        Book.title b = BookRow.title r ∧ Book.author b = BookRow.author r ∧
        Book.price b = Text (BookRow.price r)) ∧
  (BooksService.findBookById bookId res.2).1 = res.1 ∧
  (∀ k, k ≠ bookId → books res.2 !! k = books db !! k) ∧
  users res.2 = users db.
Proof.
  intros Hb Hu. cbn zeta. rewrite markBookAsSold_run, Hb, Hu. cbn.
  split; [eexists; repeat split|].
  split.
  - run. cbn. rewrite lookup_insert_eq. cbn.
    unfold BookRepo.entity, sold_to. cbn. by rewrite Hu.
  - split; [|done]. intros k Hk. by rewrite lookup_insert_ne.
Qed.

Lemma markBookAsSold_ignores_isSold_witness :
  books market !! id_b2 = Some silmarillion ∧
  BookRow.buyerId silmarillion = Some id_u1 ∧
  users market !! id_u2 = Some bea ∧
  (BooksService.markBookAsSold id_b2 id_u2 market).1 =
    Returned (Some (sold_to (BookRepo.entity market id_b2 silmarillion)
                            (UserRepo.entity id_u2 bea))) ∧
  (BooksService.findBookById id_b2 (BooksService.markBookAsSold id_b2 id_u2 market).2).1 =
    (BooksService.markBookAsSold id_b2 id_u2 market).1.
Proof.
  assert (Hb : books market !! id_b2 = Some silmarillion) by (vm_compute; reflexivity).
  assert (Hu : users market !! id_u2 = Some bea) by (vm_compute; reflexivity).
  destruct (markBookAsSold_ignores_isSold market id_b2 id_u2 silmarillion bea Hb Hu)
    as (_ & Hread & _).
  split; [exact Hb|]. split; [reflexivity|]. split; [exact Hu|].
  split; [vm_compute; reflexivity|exact Hread].
Defined.



(** X3.  A purchase that is not confirmed writes nothing: whenever
    [buyBook] returns null or throws, the database is the one it was given,
    and so it is after the 404 or 500 of POST /books/:bookId/buy/:userId. *)
Theorem buyBook_refused_writes_nothing (db : DB) (userId bookId : string) :
  (∀ msg, (BooksService.buyBook userId bookId db).1 ≠ Returned (Some msg)) →
  (BooksService.buyBook userId bookId db).2 = db ∧
  (BooksController.buy bookId userId db).2 = db.
Proof.
  intros Hnone.
  assert (Hdb : (BooksService.buyBook userId bookId db).2 = db).
  { revert Hnone. rewrite buyBook_run.
    destruct (books db !! bookId) as [r|]; [|done].
    destruct (BookRow.isSold r); [done|].
    destruct (users db !! userId) as [u|]; [|done].
    intros Hno. by destruct (Hno _ eq_refl). }
  split; [done|]. by rewrite buy_run.
Qed.

Lemma buyBook_refused_writes_nothing_witness :
  (BooksService.buyBook id_u1 id_b2 market).1 = Returned None ∧
  (BooksService.buyBook id_u1 id_b2 market).2 = market ∧
  (BooksController.buy id_b2 id_u1 market).2 = market ∧
  (BooksController.buy not_a_uuid id_u1 market).2 = market.
Proof.
  assert (Hnone : (BooksService.buyBook id_u1 id_b2 market).1 = Returned None)
    by (vm_compute; reflexivity).
  split; [exact Hnone|].
  destruct (buyBook_refused_writes_nothing market id_u1 id_b2) as [Hdb Hbuy].
  { intros msg. rewrite Hnone. discriminate. }
  split; [exact Hdb|]. split; [exact Hbuy|].
  apply (buyBook_refused_writes_nothing market id_u1 not_a_uuid).
  intros msg. vm_compute. discriminate.
Defined.

(** X4.  A book is bought once: after a successful [buyBook], a further
    [buyBook] of the same book, by the same or any other user, returns null,
    leaves the database as the first purchase left it, and the endpoint
    answers 404. *)
Theorem buyBook_only_once
    (db : DB) (userId userId' bookId : string) (r : BookRow.t) (u : UserRow.t) :
  books db !! bookId = Some r →
  BookRow.isSold r = false →
  users db !! userId = Some u →
  let db1 := (BooksService.buyBook userId bookId db).2 in
  BooksService.buyBook userId' bookId db1 = (Returned None, db1) ∧
  BooksController.buy bookId userId' db1 =
    ({| status := 404;
        body := Some (JObj [("message", JStr "Book not found or already sold")]) |}, db1).
Proof.
  intros Hb Hs Hu. cbn zeta.
  assert (Hagain : ∀ db1, db1 = (BooksService.buyBook userId bookId db).2 →
            BooksService.buyBook userId' bookId db1 = (Returned None, db1)).
  { intros db1 ->. rewrite (buyBook_run db userId), Hb, Hu, Hs. cbn [snd].
    rewrite buyBook_run. cbn [books users set_books]. by rewrite lookup_insert_eq. }
  split; [by apply Hagain|].
  by rewrite buy_run, (Hagain _ eq_refl).
Qed.

Lemma buyBook_only_once_witness :
  books market !! id_b1 = Some hobbit ∧
  users market !! id_u1 = Some ana ∧
  (BooksController.buy id_b1 id_u2 (BooksService.buyBook id_u1 id_b1 market).2).1 =
    {| status := 404;
       body := Some (JObj [("message", JStr "Book not found or already sold")]) |}.
Proof.
  assert (Hb : books market !! id_b1 = Some hobbit) by (vm_compute; reflexivity).
  assert (Hu : users market !! id_u1 = Some ana) by (vm_compute; reflexivity).
  split; [exact Hb|]. split; [exact Hu|].
  destruct (buyBook_only_once market id_u1 id_u2 id_b1 hobbit ana Hb eq_refl Hu) as [_ Hbuy].
  by rewrite Hbuy.
Defined.
(** ** Listing books *)

Lemma elem_of_find_isSold (v : bool) (db : DB) (b : Book) :
  b ∈ (BookRepo.find_isSold v db).1 ↔
  ∃ k r, books db !! k = Some r ∧ BookRow.isSold r = v ∧ b = BookRepo.entity_plain k r.
Proof.
  unfold BookRepo.find_isSold, gets. cbn [fst].
  rewrite list_elem_of_In, filter_In, <- list_elem_of_In, list_elem_of_fmap.
  split.
  - intros [([k r] & -> & Hin) Heq]. apply elem_of_map_to_list in Hin.
    apply Bool.eqb_prop in Heq. by exists k, r.
  - intros (k & r & Hr & Hv & ->). split.
    + exists (k, r). split; [done|]. by apply elem_of_map_to_list.
    + cbn. rewrite Hv. by destruct v.
Qed.

Lemma length_filter_split {A} (p : A → bool) (l : list A) :
  length (List.filter p l) + length (List.filter (λ x, negb (p x)) l) = length l.
Proof.
  induction l as [|x l IH]; [done|]. cbn. destruct (p x); cbn; lia.
Qed.

(** X5.  [getAvailableBooks] (which is also [findBooks]) returns exactly the
    stored books with [isSold = false] and [getSoldBooks] exactly those with
    [isSold = true], both without the buyer loaded; no record is in both
    lists, together they count every stored book once, and neither call
    changes the database. *)
Theorem available_and_sold_partition (db : DB) :
  (∀ b, b ∈ (BooksService.getAvailableBooks db).1 ↔
        ∃ k r, books db !! k = Some r ∧ BookRow.isSold r = false ∧
               b = BookRepo.entity_plain k r) ∧
  (∀ b, b ∈ (BooksService.getSoldBooks db).1 ↔
        ∃ k r, books db !! k = Some r ∧ BookRow.isSold r = true ∧
               b = BookRepo.entity_plain k r) ∧
  (∀ b, ¬ (b ∈ (BooksService.getAvailableBooks db).1 ∧
           b ∈ (BooksService.getSoldBooks db).1)) ∧
  length (BooksService.getAvailableBooks db).1 +
    length (BooksService.getSoldBooks db).1 = size (books db) ∧
  BooksService.findBooks db = BooksService.getAvailableBooks db ∧
  (BooksService.getAvailableBooks db).2 = db ∧
  (BooksService.getSoldBooks db).2 = db.
Proof.
  unfold BooksService.findBooks, BooksService.getAvailableBooks, BooksService.getSoldBooks.
  split; [intros b; apply elem_of_find_isSold|].
  split; [intros b; apply elem_of_find_isSold|].
  split.
  - intros b [Ha Hs].
    apply elem_of_find_isSold in Ha as (k & r & _ & Hf & ->).
    apply elem_of_find_isSold in Hs as (k' & r' & _ & Ht & [= _ _ _ _ Heq]).
    congruence.
  - split; [|done].
    unfold BookRepo.find_isSold, gets. cbn [fst].
    rewrite Nat.add_comm.
    erewrite (filter_ext (λ b, Bool.eqb (Book.isSold b) false)
                        (λ b, negb (Bool.eqb (Book.isSold b) true))).
    + by rewrite length_filter_split, length_fmap, length_map_to_list.
    + intros b. by destruct (Book.isSold b).
Qed.

(** X6.  A purchase moves the book from the list of available books to the list
    of sold books. *)
Theorem buyBook_moves_to_sold
    (db : DB) (userId bookId : string) (r : BookRow.t) (u : UserRow.t) :
  books db !! bookId = Some r →
  BookRow.isSold r = false →
  users db !! userId = Some u →
  let db1 := (BooksService.buyBook userId bookId db).2 in
  bookId ∈ (Book.id <$> (BooksService.findBooks db).1) ∧
  (bookId ∉ (Book.id <$> (BooksService.getSoldBooks db).1)) ∧
  (bookId ∉ (Book.id <$> (BooksService.findBooks db1).1)) ∧
  bookId ∈ (Book.id <$> (BooksService.getSoldBooks db1).1).
Proof.
  intros Hb Hs Hu. cbn zeta.
  rewrite buyBook_run, Hb, Hu, Hs. cbn [snd].
  unfold BooksService.findBooks, BooksService.getAvailableBooks, BooksService.getSoldBooks.
  rewrite !list_elem_of_fmap.
  split; [|split; [|split]].
  - exists (BookRepo.entity_plain bookId r). split; [done|].
    apply elem_of_find_isSold. by exists bookId, r.
  - intros (b & -> & Hin). apply elem_of_find_isSold in Hin as (k & r' & Hr' & Ht & ->).
    cbn in Hb. congruence.
  - intros (b & -> & Hin). apply elem_of_find_isSold in Hin as (k & r' & Hr' & Hf & ->).
    cbn in Hr'. rewrite lookup_insert_eq in Hr'. by injection Hr' as <-.
  - eexists. split; [|apply elem_of_find_isSold; eexists bookId, _;
                      split; [apply lookup_insert_eq|split; reflexivity]].
    reflexivity.
Qed.

Lemma buyBook_moves_to_sold_witness :
  books market !! id_b1 = Some hobbit ∧
  users market !! id_u2 = Some bea ∧
  id_b1 ∈ (Book.id <$> (BooksService.findBooks market).1) ∧
  (id_b1 ∉ (Book.id <$> (BooksService.findBooks (BooksService.buyBook id_u2 id_b1 market).2).1)) ∧
  id_b1 ∈ (Book.id <$> (BooksService.getSoldBooks (BooksService.buyBook id_u2 id_b1 market).2).1).
Proof.
  assert (Hb : books market !! id_b1 = Some hobbit) by (vm_compute; reflexivity).
  assert (Hu : users market !! id_u2 = Some bea) by (vm_compute; reflexivity).
  destruct (buyBook_moves_to_sold market id_u2 id_b1 hobbit bea Hb eq_refl Hu)
    as (Hin & _ & Hout & Hsold).
  split; [exact Hb|]. split; [exact Hu|]. split; [exact Hin|].
  split; [exact Hout | exact Hsold].
Defined.

(** X7.  [getBooks] returns exactly the records that [findBookById] returns for
    the stored identifiers, one per stored book, and does not change the
    database. *)
Theorem getBooks_agrees_with_findBookById (db : DB) :
  (∀ b, b ∈ (BooksService.getBooks db).1 ↔
        (BooksService.findBookById (Book.id b) db).1 = Returned (Some b)) ∧
  length (BooksService.getBooks db).1 = size (books db) ∧
  (BooksService.getBooks db).2 = db.
Proof.
  run. split; [|split; [|done]].
  - intros b. rewrite list_elem_of_fmap. split.
    + intros ([k r] & -> & Hin). apply elem_of_map_to_list in Hin. cbn. by rewrite Hin.
    + intros Hfind. destruct (books db !! Book.id b) as [r|] eqn:Hr;
        [|by destruct (is_uuid (Book.id b))].
      injection Hfind as <-. exists (Book.id b, r).
      split; [reflexivity|]. by apply elem_of_map_to_list.
  - by rewrite length_fmap, length_map_to_list.
Qed.

(** ** Updating, creating and deleting books *)



(** X9.  The generic update can undo a sale: after [updateBook] with
    [isSold: false] on a stored book, sold or not, [buyBook] by any stored
    user succeeds again, with the title the update left. *)
Theorem updateBook_puts_back_on_sale
    (db : DB) (id userId : string) (dto : UpdateBookDto.t) (r : BookRow.t) (u : UserRow.t) :
  books db !! id = Some r →
  UpdateBookDto.isSold dto = Some false →
  users db !! userId = Some u →
  (BooksService.buyBook userId id (BooksService.updateBook id dto db).2).1 =
    Returned (Some ("El libro " +:+ default (BookRow.title r) (UpdateBookDto.title dto) +:+
                    " ha sido comprado por el usuario con ID " +:+ userId +:+ ".")).
Proof.
  intros Hr Hdto Hu. rewrite updateBook_run, Hr. cbn [snd].
  rewrite buyBook_run. cbn [books users set_books]. rewrite lookup_insert_eq, Hu.
  cbn. by rewrite Hdto.
Qed.

Lemma updateBook_puts_back_on_sale_witness :
  books market !! id_b2 = Some silmarillion ∧
  BookRow.isSold silmarillion = true ∧
  users market !! id_u2 = Some bea ∧
  (BooksService.buyBook id_u2 id_b2 market).1 = Returned None ∧
  (BooksService.buyBook id_u2 id_b2 (BooksService.updateBook id_b2 unsell_dto market).2).1 =
    Returned (Some ("El libro The Silmarillion ha sido comprado por el usuario con ID "
                    +:+ id_u2 +:+ ".")).
Proof.
  assert (Hb : books market !! id_b2 = Some silmarillion) by (vm_compute; reflexivity).
  assert (Hu : users market !! id_u2 = Some bea) by (vm_compute; reflexivity).
  split; [exact Hb|]. split; [reflexivity|]. split; [exact Hu|].
  split; [vm_compute; reflexivity|].
  exact (updateBook_puts_back_on_sale market id_b2 id_u2 unsell_dto silmarillion bea
           Hb eq_refl Hu).
Defined.

(** X10.  A book that was just created is on sale: it is listed by
    [findBooks], as the record [addBook] returned with the price as the
    database's text, and [buyBook] by any stored user returns the
    confirmation with the title of the request body. *)
Theorem addBook_then_buyBook
    (db : DB) (dto : CreateBookDto.t) (uuid userId : string) (u : UserRow.t) :
  users db !! userId = Some u →
  let db1 := (BooksService.addBook dto uuid db).2 in
  reread (BooksService.addBook dto uuid db).1 ∈ (BooksService.findBooks db1).1 ∧
  (BooksService.buyBook userId uuid db1).1 =
    Returned (Some ("El libro " +:+ CreateBookDto.title dto +:+
                    " ha sido comprado por el usuario con ID " +:+ userId +:+ ".")).
Proof.
  intros Hu. cbn zeta. rewrite addBook_run. cbn [fst snd]. split.
  - unfold BooksService.findBooks, BooksService.getAvailableBooks.
    apply elem_of_find_isSold. eexists uuid, _.
    split; [apply lookup_insert_eq|]. by split.
  - rewrite buyBook_run. cbn [books users set_books]. by rewrite lookup_insert_eq, Hu.
Qed.

Lemma addBook_then_buyBook_witness :
  users market !! id_u1 = Some ana ∧
  (BooksService.buyBook id_u1 id_b3 (BooksService.addBook new_book_dto id_b3 market).2).1 =
    Returned (Some ("El libro Dune ha sido comprado por el usuario con ID "
                    +:+ id_u1 +:+ ".")).
Proof.
  assert (Hu : users market !! id_u1 = Some ana) by (vm_compute; reflexivity).
  split; [exact Hu|].
  exact (proj2 (addBook_then_buyBook market new_book_dto id_b3 id_u1 ana Hu)).
Defined.


(** ** The book endpoints *)

#[local] Arguments json_of_decimal : simpl never.

Lemma BooksController_findOne_run (db : DB) (id : string) :
  BooksController.findOne id db =
    (match books db !! id with
     | Some r => Returned (res_json 200 (json_of_book (BookRepo.entity db id r)))
     | None => BookRepo.no_such_row id (res_json 404 (message "Book not found"))
     end, db).
Proof.
  unfold BooksController.findOne. run.
  destruct (books db !! id); [done|]. by destruct (is_uuid id).
Qed.

Lemma BooksController_update_run (db : DB) (id : string) (dto : UpdateBookDto.t) :
  BooksController.update id dto db =
    match books db !! id with
    | Some r =>
        (Returned (res_json 200
           (json_of_book (assign_book (BookRepo.entity db id r) dto))),
         (BooksService.updateBook id dto db).2)
    | None => (BookRepo.no_such_row id (res_json 404 (message "Book not found")), db)
    end.
Proof.
  rewrite updateBook_run. unfold BooksController.update. run.
  destruct (books db !! id) as [r|] eqn:Hr; cbn.
  - by rewrite Hr.
  - by destruct (is_uuid id).
Qed.

(** Apart from the price, a record serialises the same before and after it
    went through the database. *)
Lemma json_of_book_reread (b : Book) (k : string) :
  k ≠ "price" → json_get k (json_of_book (reread b)) = json_get k (json_of_book b).
Proof.
  intros Hk. unfold json_of_book, reread, json_get.
  cbn [json_field Book.id Book.title Book.author Book.price Book.isSold Book.buyer].
  destruct (String.eqb k "id"); [reflexivity|].
  destruct (String.eqb k "title"); [reflexivity|].
  destruct (String.eqb k "author"); [reflexivity|].
  destruct (String.eqb_spec k "price"); [done|]. reflexivity.
Qed.

Lemma json_of_book_price (b : Book) :
  json_get "price" (json_of_book b) = Some (json_of_decimal (Book.price b)).
Proof. reflexivity. Qed.



(** X13.  GET /books/:id and GET /books send a sold book with its buyer's
    whole record: the [buyer] property of the 200 body carries the buyer's
    id, e-mail and stored password hash.  For a book without buyer the
    property is [null]. *)
Theorem book_bodies_carry_buyer_record (db : DB) (id : string) (r : BookRow.t) :
  books db !! id = Some r →
  ∃ j items,
    BooksController.findOne id db =
      (Returned {| status := 200; body := Some j |}, db) ∧
    BooksController.findAll db = ({| status := 200; body := Some (JArr items) |}, db) ∧
    j ∈ items ∧
    json_get "id" j = Some (JStr id) ∧
    (BookRow.buyerId r = None → json_get "buyer" j = Some JNull) ∧
    (∀ uid ur, BookRow.buyerId r = Some uid → users db !! uid = Some ur →
       ∃ buyer, json_get "buyer" j = Some buyer ∧
                json_get "id" buyer = Some (JStr uid) ∧
                json_get "email" buyer = Some (JStr (UserRow.email ur)) ∧
                json_get "password" buyer = Some (JStr (UserRow.password ur))).
Proof.
  intros Hr. exists (json_of_book (BookRepo.entity db id r)). eexists.
  split; [by rewrite BooksController_findOne_run, Hr|].
  split; [reflexivity|].
  split.
  { apply list_elem_of_fmap. exists (BookRepo.entity db id r). split; [done|].
    run. apply list_elem_of_fmap. exists (id, r). split; [done|].
    by apply elem_of_map_to_list. }
  split; [done|]. split.
  - intros Hnone. cbn. by rewrite Hnone.
  - intros uid ur Hbuyer Hu. cbn. rewrite Hbuyer. cbn. rewrite Hu. cbn.
    by eexists.
Qed.

Lemma book_bodies_carry_buyer_record_witness :
  books market !! id_b2 = Some silmarillion ∧
  ∃ j buyer,
    (BooksController.findOne id_b2 market).1 =
      Returned {| status := 200; body := Some j |} ∧
    json_get "buyer" j = Some buyer ∧
    json_get "password" buyer = Some (JStr "$2b$10$hash").
Proof.
  assert (Hb : books market !! id_b2 = Some silmarillion) by (vm_compute; reflexivity).
  split; [exact Hb|].
  destruct (book_bodies_carry_buyer_record market id_b2 silmarillion Hb)
    as (j & items & Hone & _ & _ & _ & _ & Hbuyer).
  destruct (Hbuyer id_u1 ana) as (buyer & Hj & _ & _ & Hpw);
    [reflexivity | vm_compute; reflexivity |].
  exists j, buyer. rewrite Hone. done.
Defined.

(** X14.  POST /books answers 201 for every body; the record sent back has
    the generated id, the title, author and price of the request, the price
    as the number that was sent, and [isSold = false] whatever the request
    says.  GET /books/:id for the new id then answers 200 with the same id,
    title, author and [isSold], the price as the database's text, and
    [buyer: null]. *)
Theorem books_create_then_get (db : DB) (dto : CreateBookDto.t) (uuid : string) :
  ∃ j j',
    (BooksController.create dto uuid db).1 = {| status := 201; body := Some j |} ∧
    json_get "id" j = Some (JStr uuid) ∧
    json_get "title" j = Some (JStr (CreateBookDto.title dto)) ∧
    json_get "author" j = Some (JStr (CreateBookDto.author dto)) ∧
    json_get "price" j = Some (JNum (CreateBookDto.price dto)) ∧
    json_get "isSold" j = Some (JBool false) ∧
    (BooksController.findOne uuid (BooksController.create dto uuid db).2).1 =
      Returned {| status := 200; body := Some j' |} ∧
    json_get "buyer" j' = Some JNull ∧
    json_get "price" j' = Some (JStr (pretty (CreateBookDto.price dto))) ∧
    (∀ k, k ≠ "buyer" → k ≠ "price" → json_get k j' = json_get k j).
Proof.
  eexists _, _.
  split; [reflexivity|]. repeat (split; [reflexivity|]).
  split.
  - rewrite BooksController_findOne_run. cbn. rewrite lookup_insert_eq. reflexivity.
  - split; [reflexivity|]. split; [reflexivity|]. intros k Hk Hp.
    unfold json_of_book, json_of_book_plain, json_get.
    cbn [json_field Book.id Book.title Book.author Book.price Book.isSold Book.buyer
         BookRepo.entity BookRepo.created fst].
    destruct (String.eqb k "id"); [reflexivity|].
    destruct (String.eqb k "title"); [reflexivity|].
    destruct (String.eqb k "author"); [reflexivity|].
    destruct (String.eqb_spec k "price"); [done|].
    destruct (String.eqb k "isSold"); [reflexivity|].
    destruct (String.eqb_spec k "buyer"); done.
Qed.

Lemma NoDup_fmap_filter {A B} (f : A → B) (p : A → bool) (l : list A) :
  NoDup (f <$> l) → NoDup (f <$> List.filter p l).
Proof.
  induction l as [|x l IH]; [done|]. cbn. intros Hnd.
  apply NoDup_cons in Hnd as [Hx Hl].
  destruct (p x); [|by apply IH]. cbn. apply NoDup_cons. split; [|by apply IH].
  intros Hin. apply Hx. apply list_elem_of_fmap in Hin as (y & -> & Hy).
  apply list_elem_of_fmap. exists y. split; [done|].
  apply list_elem_of_In, filter_In in Hy as [Hy _]. by apply list_elem_of_In.
Qed.



(** X16.  PUT /books/:id on a stored book answers 200 with the updated
    record, and a GET /books/:id that follows answers 200 with the record
    as the database gives it back: the same body when the request carried
    no price; when it carried one, the same body but for the price, which
    PUT answers as the number that was sent and GET as its text. *)
Theorem books_update_then_get (db : DB) (id : string) (dto : UpdateBookDto.t) (r : BookRow.t) :
  books db !! id = Some r →
  let b := assign_book (BookRepo.entity db id r) dto in
  (BooksController.update id dto db).1 =
    Returned {| status := 200; body := Some (json_of_book b) |} ∧
  (BooksController.findOne id (BooksController.update id dto db).2).1 =
    Returned {| status := 200; body := Some (json_of_book (reread b)) |} ∧
  (UpdateBookDto.price dto = None →
     (BooksController.findOne id (BooksController.update id dto db).2).1 =
     (BooksController.update id dto db).1) ∧
  (∀ n, UpdateBookDto.price dto = Some n →
     json_get "price" (json_of_book b) = Some (JNum n) ∧
     json_get "price" (json_of_book (reread b)) = Some (JStr (pretty n))) ∧
  (∀ k, k ≠ "price" → json_get k (json_of_book (reread b)) = json_get k (json_of_book b)).
Proof.
  intros Hr. cbn zeta. rewrite BooksController_update_run, Hr. cbn [fst snd].
  assert (Hget : (BooksController.findOne id (BooksService.updateBook id dto db).2).1 =
    Returned {| status := 200;
                body := Some (json_of_book
                  (reread (assign_book (BookRepo.entity db id r) dto))) |}).
  { rewrite BooksController_findOne_run, updateBook_run, Hr.
    cbn [fst snd books set_books].
    by rewrite lookup_insert_eq, entity_set_books, updateBook_reload. }
  split; [done|]. split; [exact Hget|]. split; [|split].
  - intros Hp. rewrite Hget. unfold reread, assign_book. cbn. by rewrite Hp.
  - intros n Hp. rewrite !json_of_book_price. unfold reread, assign_book. cbn.
    by rewrite Hp.
  - intros k Hk. by apply json_of_book_reread.
Qed.

Lemma books_update_then_get_witness :
  books market !! id_b1 = Some hobbit ∧
  (BooksController.findOne id_b1 (BooksController.update id_b1 retitle_dto market).2).1 =
    (BooksController.update id_b1 retitle_dto market).1 ∧
  (BooksController.update id_b1 retitle_dto market).1 =
    Returned {| status := 200;
                body := Some (JObj [("id", JStr id_b1);
                                    ("title", JStr "There and Back Again");
                                    ("author", JStr "Tolkien");
                                    ("price", JStr "10");
                                    ("isSold", JBool false);
                                    ("buyer", JNull)]) |}.
Proof.
  assert (Hb : books market !! id_b1 = Some hobbit) by (vm_compute; reflexivity).
  destruct (books_update_then_get market id_b1 retitle_dto hobbit Hb)
    as (Hput & _ & Hsame & _).
  split; [exact Hb|]. split; [exact (Hsame eq_refl)|]. rewrite Hput.
  vm_compute. reflexivity.
Defined.
(** ** Users: storing and finding *)

Lemma members_rows (k : string) (r : UserRow.t) :
  users members !! k = Some r → (k = id_u2 ∧ r = bea) ∨ (k = id_u1 ∧ r = ana).
Proof.
  unfold members. cbn. intros Hr.
  apply lookup_insert_Some in Hr as [[<- <-]|[_ Hr]]; [by left|].
  apply lookup_singleton_Some in Hr as [<- <-]. by right.
Qed.

Lemma members_emails_unique : emails_unique members.
Proof.
  intros k1 k2 r1 r2 H1 H2 He.
  apply members_rows in H1 as [[-> ->]|[-> ->]];
    apply members_rows in H2 as [[-> ->]|[-> ->]]; done.
Qed.

Lemma addUser_run (dto : CreateUserDto.t) (uuid : string) (db : DB) :
  UsersService.addUser dto uuid db =
    let r := {| UserRow.email := CreateUserDto.email dto;
                UserRow.name := CreateUserDto.name dto;
                UserRow.password := CreateUserDto.password dto |} in
    if UserRepo.email_taken (CreateUserDto.email dto) db
    then (Thrown UniqueViolation, db)
    else (Returned (UserRepo.entity uuid r), set_users (<[uuid := r]>) db).
Proof. reflexivity. Qed.

Lemma updateUser_run (id : string) (dto : UpdateUserDto.t) (db : DB) :
  UsersService.updateUser id dto db =
    match users db !! id with
    | Some r =>
        let u := assign_user (UserRepo.entity id r) dto in
        (Some u, set_users (<[id := UserRepo.row u]>) db)
    | None => (None, db)
    end.
Proof.
  unfold UsersService.updateUser, UsersService.findUserById. run.
  by destruct (users db !! id).
Qed.

(** X17.  With unique e-mail addresses, [findUsersByEmail] returns exactly the
    stored user that has the address, and null when no stored user has
    it; it never changes the database. *)
Theorem findUsersByEmail_finds_the_user (db : DB) :
  emails_unique db →
  (∀ k r, users db !! k = Some r →
     UsersService.findUsersByEmail (UserRow.email r) db = (Some (UserRepo.entity k r), db)) ∧
  (∀ email, ¬ email_registered db email →
     UsersService.findUsersByEmail email db = (None, db)).
Proof.
  intros Huniq. unfold UsersService.findUsersByEmail. split.
  - intros k r Hr.
    destruct (findOne_email_registered db (UserRow.email r)) as (u & Hfind & Hrow & He).
    { by exists k, r. }
    assert (User.id u = k) as Hk by (by eapply Huniq).
    pose proof (findOne_email_state db (UserRow.email r)) as Hst.
    destruct (UserRepo.findOne_email (UserRow.email r) db) as [found db'].
    cbn in Hfind, Hst. subst found db'. f_equal. f_equal.
    subst k. rewrite Hrow in Hr. injection Hr as <-. by destruct u.
  - intros email Hno. apply findOne_email_None in Hno.
    pose proof (findOne_email_state db email) as Hst.
    destruct (UserRepo.findOne_email email db) as [found db'].
    cbn in Hno, Hst. by subst.
Qed.

Lemma findUsersByEmail_finds_the_user_witness :
  emails_unique members ∧
  UsersService.findUsersByEmail "b@b.com" members =
    (Some (UserRepo.entity id_u2 bea), members).
Proof.
  split; [exact members_emails_unique|].
  apply (proj1 (findUsersByEmail_finds_the_user members members_emails_unique) id_u2 bea).
  vm_compute; reflexivity.
Defined.

(** X18.  [getUsers] returns exactly the records that [findUserById] returns for
    the stored identifiers, one per stored user, and does not change the
    database. *)
Theorem getUsers_agrees_with_findUserById (db : DB) :
  (∀ u, u ∈ (UsersService.getUsers db).1 ↔
        (UsersService.findUserById (User.id u) db).1 = Some u) ∧
  length (UsersService.getUsers db).1 = size (users db) ∧
  (UsersService.getUsers db).2 = db.
Proof.
  unfold UsersService.getUsers, UsersService.findUserById. run.
  split; [|split; [|done]].
  - intros u. rewrite list_elem_of_fmap. split.
    + intros ([k r] & -> & Hin). apply elem_of_map_to_list in Hin. cbn. by rewrite Hin.
    + intros Hfind. destruct (users db !! User.id u) as [r|] eqn:Hr; [|done].
      injection Hfind as <-. exists (User.id u, r).
      split; [reflexivity|]. by apply elem_of_map_to_list.
  - by rewrite length_fmap, length_map_to_list.
Qed.

(** X19.  [addUser] makes no check of its own and leaves the uniqueness of
    e-mail addresses to the database.  For an address that is not
    registered it writes the row under the generated id; the record it
    returns carries the id and the body's fields, [findUserById] reads it
    back, and the other users and the books are untouched.  For an address
    that is registered the insert is refused: [addUser] throws and nothing
    is written. *)
Theorem addUser_inserts_unchecked (db : DB) (dto : CreateUserDto.t) (uuid : string) :
  (¬ email_registered db (CreateUserDto.email dto) →
     let u := {| User.id := uuid; User.email := CreateUserDto.email dto;
                 User.name := CreateUserDto.name dto;
                 User.password := CreateUserDto.password dto |} in
     let db1 := (UsersService.addUser dto uuid db).2 in
     (UsersService.addUser dto uuid db).1 = Returned u ∧
     (UsersService.findUserById uuid db1).1 = Some u ∧
     email_registered db1 (CreateUserDto.email dto) ∧
     (∀ k, k ≠ uuid → users db1 !! k = users db !! k) ∧
     books db1 = books db) ∧
  (email_registered db (CreateUserDto.email dto) →
     UsersService.addUser dto uuid db = (Thrown UniqueViolation, db)).
Proof.
  rewrite addUser_run. cbn zeta. split.
  - intros Hno. rewrite (email_not_taken db _ Hno). cbn [fst snd].
    split; [reflexivity|]. split.
    + unfold UsersService.findUserById. run. cbn. by rewrite lookup_insert_eq.
    + split; [|split; [|done]].
      * eexists uuid, _. split; [apply lookup_insert_eq|reflexivity].
      * intros k Hk. cbn. by rewrite lookup_insert_ne.
  - intros Hreg. apply email_taken_spec in Hreg. by rewrite Hreg.
Qed.

Lemma addUser_inserts_unchecked_witness :
  ¬ email_registered members "c@b.com" ∧
  email_registered members "a@b.com" ∧
  (UsersService.findUserById id_u3 (UsersService.addUser signup_carl id_u3 members).2).1 =
    Some {| User.id := id_u3; User.email := "c@b.com"; User.name := "Carl";
            User.password := "12345678" |} ∧
  UsersService.addUser signup_ana id_u3 members = (Thrown UniqueViolation, members).
Proof.
  assert (Hno : ¬ email_registered members "c@b.com").
  { intros (k & r & Hr & He). by apply members_rows in Hr as [[-> ->]|[-> ->]]. }
  assert (Hreg : email_registered members "a@b.com").
  { exists id_u1, ana. split; vm_compute; reflexivity. }
  split; [exact Hno|]. split; [exact Hreg|]. split.
  - exact (proj1 (proj2 (proj1 (addUser_inserts_unchecked members signup_carl id_u3) Hno))).
  - exact (proj2 (addUser_inserts_unchecked members signup_ana id_u3) Hreg).
Defined.



(** ** The user endpoints *)

Lemma login_run `{Bcrypt} `{JwtService} `{ProcessEnv} (db : DB) (body_ : LoginDto.t) :
  UsersController.login body_ db =
    (match (UserRepo.findOne_email (LoginDto.email body_) db).1 with
     | None => res_json 404 (message "User not found")
     | Some user =>
         if bcrypt_compare (LoginDto.password body_) (User.password user)
         then res_json 200 (UsersService.login (User.email user) db).1
         else res_json 401 (message "Invalid credentials")
     end, db).
Proof.
  pose proof (findOne_email_state db (LoginDto.email body_)) as Hst.
  unfold UsersController.login, UsersService.findUsersByEmail, bind.
  destruct (UserRepo.findOne_email (LoginDto.email body_) db) as [user db'].
  cbn in Hst. subst db'. cbn [fst].
  destruct user as [user|]; [|done].
  by destruct (bcrypt_compare _ _).
Qed.

Lemma UsersController_update_run `{Bcrypt} (db : DB) (id : string) (dto : UpdateUserDto.t) :
  UsersController.update id dto db =
    match users db !! id with
    | Some r =>
        let u :=
          {| User.id := id;
             User.email := default (UserRow.email r) (UpdateUserDto.email dto);
             User.name := default (UserRow.name r) (UpdateUserDto.name dto);
             User.password :=
               match UpdateUserDto.password dto with
               | Some p => if String.eqb p "" then p else bcrypt_hash p 10
               | None => UserRow.password r
               end |} in
        (res_json 200 (json_of_user u), set_users (<[id := UserRepo.row u]>) db)
    | None => (res_json 404 (message "User not found"), db)
    end.
Proof.
  unfold UsersController.update, UsersService.updateUser, UsersService.findUserById.
  run. destruct (users db !! id) as [r|] eqn:Hr; cbn; [|done].
  destruct (UpdateUserDto.password dto) as [p|] eqn:Hp; cbn.
  - destruct (String.eqb_spec p "") as [->|Hne]; cbn;
      rewrite Hr; unfold assign_user; cbn; by rewrite ?Hp.
  - rewrite Hr. unfold assign_user. cbn. by rewrite Hp.
Qed.

(** X21.  Signing up keeps e-mail addresses unique: on a database where no two
    users share an address, POST /users with a generated id that is not in
    use leaves such a database, whether it answers 201 or 400; so does
    DELETE /users/:id. *)
Theorem emails_unique_preserved `{Bcrypt} (db : DB) :
  emails_unique db →
  (∀ dto uuid, users db !! uuid = None →
     emails_unique (UsersController.create dto uuid db).2) ∧
  (∀ id, emails_unique (UsersController.remove id db).2).
Proof.
  intros Huniq. split.
  - intros dto uuid Hfresh.
    destruct ((UserRepo.findOne_email (CreateUserDto.email dto) db).1) as [u|] eqn:Hfind;
      [apply findOne_email_Some in Hfind as [Hrow He];
       assert (Hreg : email_registered db (CreateUserDto.email dto))
         by (by exists (User.id u), (UserRepo.row u))
      |apply findOne_email_None in Hfind as Hno].
    + by rewrite (create_taken_run db dto uuid Hreg).
    + rewrite (create_fresh_run db dto uuid Hno). cbn [snd].
      intros k1 k2 r1 r2 H1 H2 He. cbn in H1, H2.
      apply lookup_insert_Some in H1 as [[<- <-]|[Hk1 H1]];
        apply lookup_insert_Some in H2 as [[<- <-]|[Hk2 H2]]; [done| | |by eapply Huniq].
      * destruct Hno. by exists k2, r2.
      * destruct Hno. by exists k1, r1.
  - intros id. rewrite UsersController_remove_run, removeUser_run. cbn [snd].
    destruct (users db !! id) as [r|]; [|done].
    destruct (UserRepo.is_buyer id db); [done|]. cbn [snd].
    intros k1 k2 r1 r2 H1 H2 He. cbn in H1, H2.
    apply lookup_delete_Some in H1 as [_ H1]. apply lookup_delete_Some in H2 as [_ H2].
    by eapply Huniq.
Qed.

Lemma emails_unique_preserved_witness :
  emails_unique members ∧
  users members !! id_u3 = None ∧
  emails_unique (@UsersController.create demo_bcrypt signup_carl id_u3 members).2 ∧
  emails_unique (@UsersController.create demo_bcrypt signup_ana id_u3 members).2 ∧
  emails_unique (UsersController.remove id_u1 members).2.
Proof.
  assert (Hfresh : users members !! id_u3 = None) by (vm_compute; reflexivity).
  destruct (@emails_unique_preserved demo_bcrypt members members_emails_unique)
    as [Hcreate Hremove].
  split; [exact members_emails_unique|]. split; [exact Hfresh|].
  split; [exact (Hcreate signup_carl id_u3 Hfresh)|].
  split; [exact (Hcreate signup_ana id_u3 Hfresh)|].
  exact (Hremove id_u1).
Defined.

(** X22.  Signing up and logging in fit together: after POST /users has answered
    201 for an address that was not registered, POST /users/login with the
    same address and password answers 200 with the token the service issues
    for that address, provided bcrypt accepts the password against the hash
    it made of it.  A second POST /users with the same address, whatever
    the rest of the body, answers 400 and writes nothing. *)
Theorem signup_then_login `{Bcrypt} `{JwtService} `{ProcessEnv}
    (db : DB) (dto : CreateUserDto.t) (uuid : string) :
  ¬ email_registered db (CreateUserDto.email dto) →
  bcrypt_compare (CreateUserDto.password dto)
                 (bcrypt_hash (CreateUserDto.password dto) 10) = true →
  let db1 := (UsersController.create dto uuid db).2 in
  (UsersController.create dto uuid db).1 =
    Returned {| status := 201;
                body := Some (JObj [("id", JStr uuid);
                                    ("email", JStr (CreateUserDto.email dto))]) |} ∧
  UsersController.login
      {| LoginDto.email := CreateUserDto.email dto;
         LoginDto.password := CreateUserDto.password dto |} db1 =
    ({| status := 200;
        body := Some (UsersService.login (CreateUserDto.email dto) db1).1 |}, db1) ∧
  (∀ dto' uuid', CreateUserDto.email dto' = CreateUserDto.email dto →
     UsersController.create dto' uuid' db1 =
       (Returned {| status := 400;
                    body := Some (JObj [("message", JStr "User already exists")]) |},
        db1)).
Proof.
  intros Hno Hok. cbn zeta. rewrite (create_fresh_run db dto uuid Hno). cbn [fst snd].
  set (r := {| UserRow.email := CreateUserDto.email dto;
               UserRow.name := CreateUserDto.name dto;
               UserRow.password := bcrypt_hash (CreateUserDto.password dto) 10 |}).
  set (db1 := set_users (<[uuid := r]>) db).
  assert (Hreg : email_registered db1 (CreateUserDto.email dto)).
  { exists uuid, r. split; [apply lookup_insert_eq|done]. }
  split; [done|]. split.
  - rewrite login_run. cbn [LoginDto.email LoginDto.password].
    destruct (findOne_email_registered db1 _ Hreg) as (u & Hfind & Hrow & He).
    rewrite Hfind. f_equal.
    assert (Hpw : User.password u = bcrypt_hash (CreateUserDto.password dto) 10).
    { unfold db1 in Hrow. cbn in Hrow.
      apply lookup_insert_Some in Hrow as [[_ Hr]|[_ Hold]].
      - change (User.password u) with (UserRow.password (UserRepo.row u)).
        by rewrite <- Hr.
      - destruct Hno. by exists (User.id u), (UserRepo.row u). }
    by rewrite Hpw, Hok, He.
  - intros dto' uuid' He. apply create_taken_run. by rewrite He.
Qed.

Lemma signup_then_login_witness :
  ¬ email_registered members "c@b.com" ∧
  status (@UsersController.login demo_bcrypt demo_jwt demo_env login_carl
            (@UsersController.create demo_bcrypt signup_carl id_u3 members).2).1 = 200 ∧
  status (@UsersController.login demo_bcrypt demo_jwt demo_env login_carl members).1 = 404.
Proof.
  assert (Hno : ¬ email_registered members "c@b.com").
  { intros (k & r & Hr & He). by apply members_rows in Hr as [[-> ->]|[-> ->]]. }
  split; [exact Hno|].
  destruct (@signup_then_login demo_bcrypt demo_jwt demo_env members signup_carl id_u3
              Hno eq_refl) as (_ & Hlogin & _).
  split; [|vm_compute; reflexivity].
  change login_carl with {| LoginDto.email := CreateUserDto.email signup_carl;
                            LoginDto.password := CreateUserDto.password signup_carl |}.
  by rewrite Hlogin.
Defined.





(** X25.  GET, PUT and DELETE /users/:id on an identifier that is not stored
    answer 404 with [{ message: "User not found" }] and leave the database
    as it was. *)
Theorem users_missing_id_404 `{Bcrypt} (db : DB) (id : string) (dto : UpdateUserDto.t) :
  users db !! id = None →
  UsersController.findOne id db =
    ({| status := 404; body := Some (JObj [("message", JStr "User not found")]) |}, db) ∧
  UsersController.update id dto db =
    ({| status := 404; body := Some (JObj [("message", JStr "User not found")]) |}, db) ∧
  UsersController.remove id db =
    (Returned {| status := 404;
                 body := Some (JObj [("message", JStr "User not found")]) |}, db).
Proof.
  intros Hr.
  rewrite UsersController_update_run, UsersController_remove_run, removeUser_run, Hr.
  unfold UsersController.findOne, UsersService.findUserById. run. by rewrite Hr.
Qed.

Lemma users_missing_id_404_witness :
  users members !! id_u9 = None ∧
  status (UsersController.findOne id_u9 members).1 = 404 ∧
  status (@UsersController.update demo_bcrypt id_u9 rename_bea members).1 = 404 ∧
  (UsersController.remove id_u9 members).1 =
    Returned {| status := 404;
                body := Some (JObj [("message", JStr "User not found")]) |}.
Proof.
  assert (Hn : users members !! id_u9 = None) by (vm_compute; reflexivity).
  destruct (@users_missing_id_404 demo_bcrypt members id_u9 rename_bea Hn) as (H1 & H2 & H3).
  split; [exact Hn|]. by rewrite H1, H2, H3.
Defined.


